(** * RtmpStreamOnSmartGlasses: the stream session orchestrator

    A shallow embedding of [src/index.ts] (class [ExampleAugmentOSApp]) and of
    the routes of the two versions of [webview.ts] that the repository
    contains which start and stop a stream, set the RTMP URL and read the
    stream information.

    Conventions of the embedding.
    - JavaScript objects of type [UserStreamState] are shared by reference:
      the [Map] [activeUserStates] maps a user id to a reference, and async
      functions and event handlers keep using a reference they captured
      after the entry has been deleted from the map.  The embedding
      therefore has an explicit store ([heap]) of state objects; the map
      holds locations.
    - [UserPersistentSettings] and [RtmpStreamStatus] objects are rebuilt
      with a spread at every update and nobody mutates a shared copy, so
      they are embedded as values.
    - An [async] function is a program of the monad [Async]: synchronous
      reads and writes of the application fields, exceptions, and [Await]
      nodes at which the function is suspended until the environment
      settles the promise.  Between the suspension and the resumption other
      handlers may run.
    - [console.log] and [console.error] output is not part of the model;
      [console.warn] is, as an [Effect].
    - Of the handlers registered in [onSession], the ones for status events
      and for the disconnect are embedded; the ones for [onConnected] and for
      voice commands are not. *)

From stdpp Require Import base option list strings gmap fin_maps.
From Stdlib Require Import ZArith Ascii.
From Stdlib Require QArith.

Local Open Scope string_scope.
Local Open Scope Z_scope.

(** ** Data model *)

Inductive StreamMode := rtmp | hls | simulation.

#[global] Instance StreamMode_eq_dec : EqDecision StreamMode.
Proof. solve_decision. Defined.

(** Modelled from the spec: the SDK enum [GlassesToCloudMessageType] is not
    part of the repository.  The program names one member,
    [RTMP_STREAM_STATUS]; every other member is kept by its name. *)
Inductive GlassesToCloudMessageType :=
| RTMP_STREAM_STATUS
| OTHER_MESSAGE_TYPE (name : string).

#[global] Instance GlassesToCloudMessageType_eq_dec :
  EqDecision GlassesToCloudMessageType.
Proof. solve_decision. Defined.

(** Milliseconds since the epoch, the value of [new Date()]. *)
Definition Date := Z.

(** Modelled from the spec: the SDK interface [RtmpStreamStatus] is not part
    of the repository.  The fields are the ones the program reads or writes
    ([type], [status], [errorDetails], [timestamp]) and the opaque [stats]
    payload of the data model, which the program only copies. *)
Record RtmpStreamStatus := mkStatus {
  msg_type : GlassesToCloudMessageType;
  status : string;
  errorDetails : option string;
  timestamp : Date;
  stats : option string
}.

#[global] Instance RtmpStreamStatus_eq_dec : EqDecision RtmpStreamStatus.
Proof. solve_decision. Defined.

(** Modelled from the spec: [TpaSession] is the SDK's handle on the device
    channel; the program never looks inside, it only calls
    [layouts.showTextWall], [streaming.requestStream] and
    [streaming.stopStream] on it. *)
Definition TpaSession := nat.

(** [interface UserStreamState] *)
Record UserStreamState := mkState {
  rtmpUrl : string;
  streamStatus : RtmpStreamStatus;
  session : TpaSession;
  faceHighlightingEnabled : option bool;
  hlsUrl : option string;
  streamMode : option StreamMode
}.

(** [interface UserPersistentSettings] *)
Record UserPersistentSettings := mkSettings {
  ps_rtmpUrl : string;
  ps_streamMode : option StreamMode;
  ps_faceHighlightingEnabled : option bool
}.

#[global] Instance UserPersistentSettings_eq_dec :
  EqDecision UserPersistentSettings.
Proof. solve_decision. Defined.

(** A property of an object literal passed as [Partial<...>]: the key is
    left out, or it is there with its value, which for an optional field may
    be [undefined].  The spread [{...a, ...b}] copies a key of [b] that holds
    [undefined]; the test [b.k !== undefined] does not see it. *)
Inductive Field (A : Type) :=
| Omitted
| Given (v : option A).
Arguments Omitted {A}.
Arguments Given {A} v.

(** [Partial<UserPersistentSettings>].  [rtmpUrl] is a required string of
    the interface: its key is left out or holds a string. *)
Record PartialSettings := mkPartial {
  pt_rtmpUrl : option string;
  pt_streamMode : Field StreamMode;
  pt_faceHighlightingEnabled : Field bool
}.

(** What the process sends out: text for the glasses' display, a warning on
    the console, and the external calls whose promise it then awaits. *)
Record VideoConfig := mkVideo {
  width : Z; height : Z; v_bitrate : Z; frameRate : Z
}.
Record AudioConfig := mkAudio {
  a_bitrate : Z; sampleRate : Z; echoCancellation : bool; noiseSuppression : bool
}.
Record StreamRequest := mkRequest {
  rq_rtmpUrl : string; video : VideoConfig; audio : AudioConfig
}.

(** The body of the configuration request of the face recognition server:
    [output_hls: true] in HLS mode, [output_rtmp: url] otherwise. *)
Record ConfigBody := mkConfigBody {
  detect_every : Z;
  similarity_threshold_percent : Z;
  output_hls : option bool;
  output_rtmp : option string
}.

(** The part of a [fetch] response the program reads. *)
Record Response := mkResponse {
  ok : bool;
  statusText : string
}.

(** The parsed body of the configuration response: [configResult.output_url]. *)
Record ConfigResult := mkConfigResult { output_url : option string }.

Inductive ExtCall :=
| Fetch (url : string) (method : string) (body : ConfigBody)
| ResponseJson (r : Response)
| RequestStream (s : TpaSession) (rq : StreamRequest)
| StopStream (s : TpaSession).

Definition reply (c : ExtCall) : Type :=
  match c with
  | Fetch _ _ _ => Response
  | ResponseJson _ => ConfigResult
  | RequestStream _ _ => unit
  | StopStream _ => unit
  end.

Inductive Effect :=
| ShowTextWall (s : TpaSession) (text : string)
| ConsoleWarn (text : string)
| Issued (c : ExtCall).

(** A JavaScript [Error]: the program reads only [message]. *)
Record JsError := Error { message : string }.

#[global] Instance JsError_eq_dec : EqDecision JsError.
Proof. solve_decision. Defined.

(** The outcome of a promise. *)
Inductive Settled (A : Type) :=
| Fulfilled (a : A)
| Rejected (e : JsError).
Arguments Fulfilled {A} a.
Arguments Rejected {A} e.

(** References to state objects. *)
Abbreviation loc := nat.

(** The fields of the application object, the store of state objects, the
    clock behind [new Date()] and everything sent out so far. *)
Record World := mkWorld {
  heap : list UserStreamState;
  activeUserStates : gmap string loc;
  persistentUserSettings : gmap string UserPersistentSettings;
  clock : Date;
  output : list Effect
}.

Definition defaultRtmpUrl : string := "rtmp://0.0.0.0/s/streamKey".

(** ** The monad of async functions *)

Inductive Async (A : Type) : Type :=
| Pure (a : A)
| Throw (e : JsError)
| Get (k : World → Async A)
| Update (f : World → World) (k : Async A)
| Await (c : ExtCall) (k : Settled (reply c) → Async A).
Arguments Pure {A} a.
Arguments Throw {A} e.
Arguments Get {A} k.
Arguments Update {A} f k.
Arguments Await {A} c k.

Fixpoint bind {A B} (m : Async A) (f : A → Async B) : Async B :=
  match m with
  | Pure a => f a
  | Throw e => Throw e
  | Get k => Get (λ w, bind (k w) f)
  | Update g k => Update g (bind k f)
  | Await c k => Await c (λ r, bind (k r) f)
  end.

#[global] Instance Async_ret : MRet Async := @Pure.
#[global] Instance Async_bind : MBind Async := λ A B f m, bind m f.

(** [try { m } catch (error) { h error }] *)
Fixpoint try_catch {A} (m : Async A) (h : JsError → Async A) : Async A :=
  match m with
  | Pure a => Pure a
  | Throw e => h e
  | Get k => Get (λ w, try_catch (k w) h)
  | Update g k => Update g (try_catch k h)
  | Await c k => Await c (λ r, try_catch (k r) h)
  end.

(** [await p]: the value of a fulfilled promise, the exception of a rejected
    one. *)
Definition await (c : ExtCall) : Async (reply c) :=
  Await c (λ r, match r with Fulfilled a => Pure a | Rejected e => Throw e end).

Definition modify (f : World → World) : Async unit := Update f (Pure tt).

(** Where a run of an async function stands once its synchronous code is
    through: returned, thrown, or suspended at an [await]. *)
Inductive Susp (A : Type) :=
| Done (a : A)
| Thrown (e : JsError)
| Waiting (c : ExtCall) (k : Settled (reply c) → Async A).
Arguments Done {A} a.
Arguments Thrown {A} e.
Arguments Waiting {A} c k.

Definition emit (e : Effect) (w : World) : World :=
  mkWorld (heap w) (activeUserStates w) (persistentUserSettings w) (clock w)
          (output w ++ [e]).

(** Runs the synchronous code up to the next [await]; the call awaited is
    sent out at that point. *)
Fixpoint run {A} (m : Async A) (w : World) : World * Susp A :=
  match m with
  | Pure a => (w, Done a)
  | Throw e => (w, Thrown e)
  | Get k => run (k w) w
  | Update f k => run k (f w)
  | Await c k => (emit (Issued c) w, Waiting c k)
  end.

(** Runs to completion against an environment that, at every [await], may
    run other handlers (it changes the world) before it settles the
    promise. *)
Fixpoint complete {A} (env : ∀ c, World → World * Settled (reply c))
    (m : Async A) (w : World) : World * Settled A :=
  match m with
  | Pure a => (w, Fulfilled a)
  | Throw e => (w, Rejected e)
  | Get k => complete env (k w) w
  | Update f k => complete env k (f w)
  | Await c k =>
      let '(w', r) := env c (emit (Issued c) w) in
      complete env (k r) w'
  end.

(** ** JavaScript operators on optional values *)

(** [a || b] for [a : string | undefined]: the empty string is falsy too. *)
Definition or_string (a : option string) (b : string) : string :=
  match a with
  | Some s => if decide (s = "") then b else s
  | None => b
  end.

(** Truthiness of a [string | undefined] and of a [boolean | undefined]. *)
Definition truthy_string (a : option string) : bool :=
  match a with
  | Some s => bool_decide (s ≠ "")
  | None => false
  end.

Definition truthy_bool (a : option bool) : bool :=
  match a with
  | Some b => b
  | None => false
  end.

(** ** Updates of a state object through a reference *)

Definition set_heap (h : list UserStreamState) (w : World) : World :=
  mkWorld h (activeUserStates w) (persistentUserSettings w) (clock w) (output w).

Definition set_activeUserStates (m : gmap string loc) (w : World) : World :=
  mkWorld (heap w) m (persistentUserSettings w) (clock w) (output w).

Definition set_persistentUserSettings (m : gmap string UserPersistentSettings)
    (w : World) : World :=
  mkWorld (heap w) (activeUserStates w) m (clock w) (output w).

Definition with_rtmpUrl (v : string) (s : UserStreamState) : UserStreamState :=
  mkState v (streamStatus s) (session s) (faceHighlightingEnabled s) (hlsUrl s)
          (streamMode s).

Definition with_streamStatus (v : RtmpStreamStatus) (s : UserStreamState) :
    UserStreamState :=
  mkState (rtmpUrl s) v (session s) (faceHighlightingEnabled s) (hlsUrl s)
          (streamMode s).

Definition with_faceHighlightingEnabled (v : option bool) (s : UserStreamState) :
    UserStreamState :=
  mkState (rtmpUrl s) (streamStatus s) (session s) v (hlsUrl s) (streamMode s).

Definition with_hlsUrl (v : option string) (s : UserStreamState) :
    UserStreamState :=
  mkState (rtmpUrl s) (streamStatus s) (session s) (faceHighlightingEnabled s) v
          (streamMode s).

Definition with_streamMode (v : option StreamMode) (s : UserStreamState) :
    UserStreamState :=
  mkState (rtmpUrl s) (streamStatus s) (session s) (faceHighlightingEnabled s)
          (hlsUrl s) v.

(** [ref.field = v], whoever else holds [ref]. *)
Definition assign (l : loc) (f : UserStreamState → UserStreamState) : Async unit :=
  modify (λ w, set_heap (alter f l (heap w)) w).

(** [this.activeUserStates.get(userId)]: the reference and the object it
    points to. *)
Definition lookupState (w : World) (userId : string) :
    option (loc * UserStreamState) :=
  l ← activeUserStates w !! userId;
  s ← heap w !! l;
  Some (l, s).

Definition activeUserStates_get (userId : string) :
    Async (option (loc * UserStreamState)) :=
  Get (λ w, Pure (lookupState w userId)).

Definition showTextWall (s : TpaSession) (text : string) : Async unit :=
  modify (emit (ShowTextWall s text)).

Definition console_warn (text : string) : Async unit :=
  modify (emit (ConsoleWarn text)).

Definition throw {A} (msg : string) : Async A := Throw (Error msg).

(** ** class ExampleAugmentOSApp *)

Definition initialStreamStatus (now : Date) : RtmpStreamStatus :=
  mkStatus RTMP_STREAM_STATUS "stopped" None now None.

Definition getInitialStreamStatus : Async RtmpStreamStatus :=
  Get (λ w, Pure (initialStreamStatus (clock w))).

(** [{ ...this.getInitialStreamStatus(), status: 'error',
       errorDetails: error.message, timestamp: new Date() }] *)
Definition errorStreamStatus (error : JsError) : Async RtmpStreamStatus :=
  init ← getInitialStreamStatus;
  Get (λ w, Pure (mkStatus (msg_type init) "error" (Some (message error))
                           (clock w) (stats init))).

Definition persistentUserSettings_get (userId : string) :
    Async (option UserPersistentSettings) :=
  Get (λ w, Pure (persistentUserSettings w !! userId)).

Definition persistentUserSettings_set (userId : string)
    (s : UserPersistentSettings) : Async unit :=
  modify (λ w, set_persistentUserSettings (<[userId := s]> (persistentUserSettings w)) w).

(** [existing || { rtmpUrl: this.defaultRtmpUrl }] *)
Definition existingOrDefault (o : option UserPersistentSettings) :
    UserPersistentSettings :=
  default (mkSettings defaultRtmpUrl None None) o.

Definition setRtmpUrlForUser (userId newUrl : string) : Async unit :=
  if decide (newUrl = "") then throw "RTMP URL must be a non-empty string"
  else
    (if negb (String.prefix "rtmp://" newUrl) && negb (String.prefix "rtmps://" newUrl)
     then console_warn ("Warning: RTMP URL for user " +:+ userId +:+
                        " does not start with rtmp:// or rtmps://")
     else Pure tt) ;;
    existing ← persistentUserSettings_get userId;
    let existingSettings := existingOrDefault existing in
    persistentUserSettings_set userId
      (mkSettings newUrl (ps_streamMode existingSettings)
                  (ps_faceHighlightingEnabled existingSettings)) ;;
    userState ← activeUserStates_get userId;
    match userState with
    | Some (l, st) =>
        assign l (with_rtmpUrl newUrl) ;;
        showTextWall (session st) ("RTMP URL updated to: " +:+ newUrl)
    | None => Pure tt
    end.

(** [{ ...existingSettings, ...settings }] *)
Definition mergeSettings (existingSettings : UserPersistentSettings)
    (settings : PartialSettings) : UserPersistentSettings :=
  mkSettings
    (default (ps_rtmpUrl existingSettings) (pt_rtmpUrl settings))
    (match pt_streamMode settings with
     | Omitted => ps_streamMode existingSettings
     | Given v => v
     end)
    (match pt_faceHighlightingEnabled settings with
     | Omitted => ps_faceHighlightingEnabled existingSettings
     | Given v => v
     end).

Definition updatePersistentSettingsForUser (userId : string)
    (settings : PartialSettings) : Async unit :=
  existing ← persistentUserSettings_get userId;
  let updatedSettings := mergeSettings (existingOrDefault existing) settings in
  persistentUserSettings_set userId updatedSettings ;;
  userState ← activeUserStates_get userId;
  match userState with
  | Some (l, _) =>
      match pt_streamMode settings with
      | Given (Some m) => assign l (with_streamMode (Some m))
      | _ => Pure tt
      end ;;
      match pt_faceHighlightingEnabled settings with
      | Given (Some b) => assign l (with_faceHighlightingEnabled (Some b))
      | _ => Pure tt
      end ;;
      match pt_rtmpUrl settings with
      | Some u => assign l (with_rtmpUrl u)
      | None => Pure tt
      end
  | None => Pure tt
  end.

(** The state object the map holds for a user, as the getters read it with
    [this.activeUserStates.get(userId)?.field]. *)
Definition activeState (w : World) (userId : string) : option UserStreamState :=
  snd <$> lookupState w userId.

Definition getRtmpUrlForUser (w : World) (userId : string) : option string :=
  match persistentUserSettings w !! userId with
  | Some persistentSettings => Some (ps_rtmpUrl persistentSettings)
  | None => Some (or_string (rtmpUrl <$> activeState w userId) defaultRtmpUrl)
  end.

Definition getDefaultRtmpUrl : string := defaultRtmpUrl.

(** Declared [RtmpStreamStatus | undefined]. *)
Definition getStreamStatusForUser (w : World) (userId : string) :
    option RtmpStreamStatus :=
  match streamStatus <$> activeState w userId with
  | Some s => Some s
  | None => Some (initialStreamStatus (clock w))
  end.

Definition isFaceHighlightingEnabledForUser (w : World) (userId : string) : bool :=
  match persistentUserSettings w !! userId ≫= ps_faceHighlightingEnabled with
  | Some b => b
  | None => default true (activeState w userId ≫= faceHighlightingEnabled)
  end.

Definition getHlsUrlForUser (w : World) (userId : string) : option string :=
  activeState w userId ≫= hlsUrl.

Definition getStreamModeForUser (w : World) (userId : string) : StreamMode :=
  match persistentUserSettings w !! userId ≫= ps_streamMode with
  | Some m => m
  | None => default hls (activeState w userId ≫= streamMode)
  end.

(** [s.replace(/[@]/g, '_')] *)
Fixpoint replace_at_signs (s : string) : string :=
  match s with
  | EmptyString => EmptyString
  | String c rest =>
      String (if Ascii.eqb c "@"%char then "_"%char else c) (replace_at_signs rest)
  end.

(** [`user_${userId.replace(/[@]/g, '_')}`] *)
Definition streamKey (userId : string) : string :=
  "user_" +:+ replace_at_signs userId.

Definition faceRecognitionServerUrl : string := "https://stream.okgodoit.com".

(** [similarity_threshold: 0.3] is kept in hundredths. *)
Definition configBody (mode : StreamMode) (urlToUse : string) : ConfigBody :=
  if decide (mode = hls)
  then mkConfigBody 5 30 (Some true) None
  else mkConfigBody 5 30 None (Some urlToUse).

Definition streamRequest (url : string) : StreamRequest :=
  mkRequest url (mkVideo 1280 720 2000000 30) (mkAudio 128000 44100 true true).

Definition noActiveSessionToStart : string :=
  "No active session for user to start stream. Please ensure glasses are connected and paired.".

Definition noActiveSessionToStop : string :=
  "No active session for user to stop stream. Please ensure glasses are connected and paired.".

Definition hlsRequiresHighlighting : string :=
  "HLS mode requires face highlighting to be enabled".

Definition configureFailed : string := "Failed to configure face recognition: ".

(** The [try] block that configures the face recognition server; its value
    is the new [urlToUse]. *)
Definition configureFaceRecognition (userId : string) (l : loc)
    (mode : StreamMode) (urlToUse : string) : Async string :=
  try_catch
    (let streamKey := streamKey userId in
     configResponse ← await (Fetch (faceRecognitionServerUrl +:+ "/api/config/" +:+ streamKey)
                                   "POST" (configBody mode urlToUse));
     if negb (ok configResponse)
     then throw (configureFailed +:+ statusText configResponse)
     else
       configResult ← await (ResponseJson configResponse);
       (if truthy_string (output_url configResult) && bool_decide (mode = hls)
        then assign l (with_hlsUrl (output_url configResult))
        else Pure tt) ;;
       Pure ("rtmp://stream.okgodoit.com/live/" +:+ streamKey))
    (λ error, throw (configureFailed +:+ message error)).

Definition streamModeText (mode : StreamMode) (highlightFaces : option bool) : string :=
  if decide (mode = hls) then "Starting stream with face highlighting (HLS)..."
  else if truthy_bool highlightFaces
       then "Starting stream with face highlighting (RTMP)..."
       else "Starting RTMP stream...".

Definition startStreamForUser (userId : string) (rtmpUrl' : option string)
    (highlightFaces : option bool) (streamMode : option StreamMode) : Async unit :=
  userState ← activeUserStates_get userId;
  match userState with
  | None => throw noActiveSessionToStart
  | Some (l, st) =>
      let mode := default hls streamMode in
      assign l (with_streamMode (Some mode)) ;;
      if decide (mode = simulation) then
        assign l (with_faceHighlightingEnabled highlightFaces) ;;
        updatePersistentSettingsForUser userId
          (mkPartial None (Given (Some mode)) (Given highlightFaces))
      else
        let highlightFaces :=
          if decide (mode = hls) then Some true else highlightFaces in
        let urlToUse := or_string rtmpUrl' (or_string (Some (rtmpUrl st)) defaultRtmpUrl) in
        assign l (with_faceHighlightingEnabled highlightFaces) ;;
        updatePersistentSettingsForUser userId
          (mkPartial None (Given (Some mode)) (Given highlightFaces)) ;;
        urlToUse ←
          (if truthy_bool highlightFaces
           then configureFaceRecognition userId l mode urlToUse
           else if decide (mode = hls) then throw hlsRequiresHighlighting
                else Pure urlToUse);
        assign l (with_rtmpUrl urlToUse) ;;
        showTextWall (session st) (streamModeText mode highlightFaces) ;;
        try_catch
          (await (RequestStream (session st) (streamRequest urlToUse)))
          (λ error,
             showTextWall (session st) ("Failed to start stream: " +:+ message error) ;;
             errorStatus ← errorStreamStatus error;
             assign l (with_streamStatus errorStatus) ;;
             Throw error)
  end.

Definition stopStreamForUser (userId : string) : Async unit :=
  userState ← activeUserStates_get userId;
  match userState with
  | None => throw noActiveSessionToStop
  | Some (l, st) =>
      showTextWall (session st) "Stopping RTMP stream via web..." ;;
      try_catch
        (await (StopStream (session st)))
        (λ error,
           showTextWall (session st) ("Failed to stop stream: " +:+ message error) ;;
           errorStatus ← errorStreamStatus error;
           assign l (with_streamStatus errorStatus) ;;
           Throw error)
  end.

(** [onSession], up to the registration of the handlers: builds the state
    object from the persistent settings and puts it into the map. *)
Definition onSession (session : TpaSession) (userId : string) : Async unit :=
  persistentSettings ← persistentUserSettings_get userId;
  let userRtmpUrl := or_string (ps_rtmpUrl <$> persistentSettings) defaultRtmpUrl in
  let userStreamMode := default hls (persistentSettings ≫= ps_streamMode) in
  let userFaceHighlighting :=
    default true (persistentSettings ≫= ps_faceHighlightingEnabled) in
  initial ← getInitialStreamStatus;
  let userState :=
    mkState userRtmpUrl initial session (Some userFaceHighlighting) None
            (Some userStreamMode) in
  modify (λ w, set_activeUserStates (<[userId := length (heap w)]> (activeUserStates w))
                 (set_heap (heap w ++ [userState]) w)) ;;
  showTextWall session "Photo & Streaming App Ready! Face highlighting available.".

(** [{ ...status, timestamp: new Date() }] *)
Definition stamp (now : Date) (s : RtmpStreamStatus) : RtmpStreamStatus :=
  mkStatus (msg_type s) (status s) (errorDetails s) now (stats s).

Definition with_type (t : GlassesToCloudMessageType) (s : RtmpStreamStatus) :
    RtmpStreamStatus :=
  mkStatus t (status s) (errorDetails s) (timestamp s) (stats s).

Definition with_status (v : string) (s : RtmpStreamStatus) : RtmpStreamStatus :=
  mkStatus (msg_type s) v (errorDetails s) (timestamp s) (stats s).

(** [`Stream error: ${status.errorDetails}`] *)
Definition interpolate (o : option string) : string := default "undefined" o.

(** The handler given to [session.streaming.onStatus] in [onSession session
    userId]. *)
Definition onStatus (session : TpaSession) (userId : string)
    (status' : RtmpStreamStatus) : Async unit :=
  currentUserState ← activeUserStates_get userId;
  match currentUserState with
  | Some (l, _) =>
      now ← Get (λ w, Pure (clock w));
      assign l (with_streamStatus (stamp now status')) ;;
      if decide (status status' = "initializing") then
        showTextWall session "Stream is initializing..."
      else if decide (status status' = "active") then
        showTextWall session "Stream is active and running!"
      else if decide (status status' = "error") then
        showTextWall session ("Stream error: " +:+ interpolate (errorDetails status'))
      else if decide (status status' = "stopped") then
        showTextWall session "Stream has stopped" ;;
        assign l (λ s, with_streamStatus (with_type RTMP_STREAM_STATUS (streamStatus s)) s) ;;
        assign l (λ s, with_streamStatus (with_status "stopped" (streamStatus s)) s)
      else Pure tt
  | None =>
      console_warn ("Received stream status for a user with no active state object: "
                    +:+ userId)
  end.

(** The handler given to [session.events.onDisconnected]. *)
Definition onDisconnected (userId : string) : Async unit :=
  modify (λ w, set_activeUserStates (delete userId (activeUserStates w)) w).

(** ** The web routes that start and stop a stream *)

(** What a route answers: [res.status(code).json({ success, message, mode })]. *)
Record HttpResponse := mkHttp {
  code : Z;
  success : bool;
  http_message : string;
  demo : option string
}.

(** [error.message || fallback] *)
Definition messageOr (error : JsError) (fallback : string) : string :=
  or_string (Some (message error)) fallback.

(** [src/webview.ts] *)
Module Webview.

Definition streamKey (userId : string) : string :=
  "user_" +:+ replace_at_signs userId.

Definition api_start_stream (authUserId : option string)
    (rtmpUrl' : option string) (highlightFaces : option bool)
    (streamMode : option StreamMode) : Async HttpResponse :=
  if truthy_string authUserId then
    let userId := default "" authUserId in
    try_catch
      (startStreamForUser userId rtmpUrl' highlightFaces streamMode ;;
       Pure (mkHttp 200 true "Stream start requested for user." None))
      (λ error,
         Pure (mkHttp 500 false
                 (messageOr error "Failed to start stream for user.") None))
  else Pure (mkHttp 401 false "User not authenticated. Cannot start stream." None).

Definition api_stop_stream (authUserId : option string) : Async HttpResponse :=
  if truthy_string authUserId then
    let userId := default "" authUserId in
    try_catch
      (stopStreamForUser userId ;;
       Pure (mkHttp 200 true "Stream stop requested for user." None))
      (λ error,
         Pure (mkHttp 500 false
                 (messageOr error "Failed to stop stream for user.") None))
  else Pure (mkHttp 401 false "User not authenticated. Cannot stop stream." None).

End Webview.

(** The second version of [webview.ts] in the repository, the one with the
    demo (simulation) mode and the fallback user. *)
Module WebviewDemo.

Definition fallbackUser : string := "alex1115alex@gmail.com".

Definition streamKey (userId : string) : string :=
  "user_" +:+ replace_at_signs userId.

Definition api_start_stream (authUserId : option string)
    (rtmpUrl' : option string) (highlightFaces : option bool)
    (streamMode : option StreamMode) : Async HttpResponse :=
  let userId := or_string authUserId fallbackUser in
  if decide (userId = "") then
    Pure (mkHttp 401 false "User not authenticated. Cannot start stream." None)
  else if decide (streamMode = Some simulation) then
    Pure (mkHttp 200 true "Demo mode activated - streaming from sample content."
                 (Some "demo"))
  else
    try_catch
      (startStreamForUser userId rtmpUrl' highlightFaces streamMode ;;
       Pure (mkHttp 200 true "Stream start requested for user." None))
      (λ error,
         Pure (mkHttp 500 false
                 (messageOr error "Failed to start stream for user.") None)).

Definition api_stop_stream (authUserId : option string) : Async HttpResponse :=
  let userId := or_string authUserId fallbackUser in
  if decide (userId = "") then
    Pure (mkHttp 401 false "User not authenticated. Cannot stop stream." None)
  else
    currentStreamMode ← Get (λ w, Pure (getStreamModeForUser w userId));
    if decide (currentStreamMode = simulation) then
      Pure (mkHttp 200 true "Demo mode stopped - disconnected from sample content."
                   (Some "demo"))
    else
      try_catch
        (stopStreamForUser userId ;;
         Pure (mkHttp 200 true "Stream stop requested for user." None))
        (λ error,
           Pure (mkHttp 500 false
                   (messageOr error "Failed to stop stream for user.") None)).

End WebviewDemo.

(** ** Reading the world *)

(** Which effects are commands to the transport, which are calls of the
    face recognition server, which are texts for the display. *)
Definition is_transport (e : Effect) : bool :=
  match e with
  | Issued (RequestStream _ _) | Issued (StopStream _) => true
  | _ => false
  end.

Definition is_highlight_call (e : Effect) : bool :=
  match e with
  | Issued (Fetch _ _ _) | Issued (ResponseJson _) => true
  | _ => false
  end.

Definition is_display (e : Effect) : bool :=
  match e with
  | ShowTextWall _ _ => true
  | _ => false
  end.

Definition emptyWorld : World := mkWorld [] ∅ ∅ 0 [].

(** The world of a fresh application at time [now]. *)
Definition worldAt (now : Date) : World := mkWorld [] ∅ ∅ now [].

(** An environment that only settles promises: no handler runs while the
    function is suspended. *)
Definition quiet (oracle : ∀ c, Settled (reply c)) :
    ∀ c, World → World * Settled (reply c) :=
  λ c w, (w, oracle c).

(** A device connects on session handle [s]: the world after [onSession]. *)
Definition connected (s : TpaSession) (userId : string) (w : World) : World :=
  fst (run (onSession s userId) w).

(** The environment of a disconnect in flight: while the configuration
    request of the face recognition server is awaited, [onDisconnected] runs
    for [userId]; otherwise promises are only settled. *)
Definition disconnect_during_fetch (userId : string)
    (oracle : ∀ c, Settled (reply c)) : ∀ c, World → World * Settled (reply c) :=
  λ c w,
    (match c with
     | Fetch _ _ _ => fst (run (onDisconnected userId) w)
     | _ => w
     end, oracle c).

(** Replies of a face recognition server that accepts the configuration and
    answers with [output_url], and of a transport that settles the stream
    commands with [transport]. *)
Definition replies (output_url : option string) (transport : Settled unit) :
    ∀ c, Settled (reply c) :=
  λ c, match c with
       | Fetch _ _ _ => Fulfilled (mkResponse true "OK")
       | ResponseJson _ => Fulfilled (mkConfigResult output_url)
       | RequestStream _ _ => transport
       | StopStream _ => transport
       end.

(** Whether the character [c] occurs in [s]. *)
Fixpoint occurs (c : ascii) (s : string) : bool :=
  match s with
  | EmptyString => false
  | String c' rest => Ascii.eqb c c' || occurs c rest
  end.

(** A user who connected on session handle 7 and then started the demo. *)
Definition demoWorld : World :=
  fst (run (startStreamForUser "u3" None (Some true) (Some simulation))
           (connected 7%nat "u3" emptyWorld)).

(** The map is the same and every state object has the [hlsUrl] it had. *)
Definition same_hlsUrl (w w' : World) : Prop :=
  activeUserStates w' = activeUserStates w
  ∧ ∀ l : loc, (hlsUrl <$> heap w' !! l) = (hlsUrl <$> heap w !! l).

(** Every synchronous update of the program, run from [w] and resumed from
    any world after each [await], keeps the map and every [hlsUrl]. *)
Fixpoint keeps_hlsUrl {A} (m : Async A) (w : World) : Prop :=
  match m with
  | Pure _ | Throw _ => True
  | Get k => keeps_hlsUrl (k w) w
  | Update f k => same_hlsUrl w (f w) ∧ keeps_hlsUrl k (f w)
  | Await c k => ∀ r w', keeps_hlsUrl (k r) w'
  end.

(** Whatever runs while a function is suspended keeps them too. *)
Definition env_keeps_hlsUrl (env : ∀ c, World → World * Settled (reply c)) : Prop :=
  ∀ c w, same_hlsUrl w (fst (env c w)).

(** A session that streamed in HLS mode, was stopped, and then streams in
    RTMP mode without highlighting. *)
Definition playbackUrl : string := "https://svc/hls/u1.m3u8".

Definition afterHlsStart : World :=
  fst (complete (quiet (replies (Some playbackUrl) (Fulfilled tt)))
                (startStreamForUser "u1" None None (Some hls))
                (connected 7%nat "u1" emptyWorld)).

Definition afterStop : World :=
  fst (run (onStatus 7%nat "u1" (mkStatus RTMP_STREAM_STATUS "stopped" None 0 None))
           (fst (complete (quiet (replies None (Fulfilled tt)))
                          (stopStreamForUser "u1") afterHlsStart))).

Definition afterRtmpStart : World :=
  fst (complete (quiet (replies None (Fulfilled tt)))
                (startStreamForUser "u1" (Some "rtmp://dest/x") (Some false) (Some rtmp))
                afterStop).

(** Every reference of the map points into the store. *)
Definition well_formed (w : World) : Prop :=
  ∀ userId (l : loc), activeUserStates w !! userId = Some l → (l < length (heap w))%nat.

(** Every synchronous update of the program, run from [w] and resumed after
    each [await] from any world that satisfies [P], leads to a world that
    satisfies [P]. *)
Fixpoint maintains {A} (P : World → Prop) (m : Async A) (w : World) : Prop :=
  match m with
  | Pure _ | Throw _ => True
  | Get k => maintains P (k w) w
  | Update f k => P (f w) ∧ maintains P k (f w)
  | Await c k => ∀ r w', P w' → maintains P (k r) w'
  end.

(** ** The routes that read and set the RTMP URL *)

(** The value of a field of [req.body], the body as the JSON parser in front
    of the routes hands it to a handler; [JsUndefined] stands for a key that
    is not there, [JsObject] for an object or an array. *)
Inductive JsValue :=
| JsUndefined
| JsNull
| JsBoolean (b : bool)
| JsNumber (q : QArith_base.Q)
| JsString (s : string)
| JsObject.

(** Truthiness, as [!v] reads it. *)
Definition truthy (v : JsValue) : bool :=
  match v with
  | JsUndefined | JsNull => false
  | JsBoolean b => b
  | JsNumber q => negb (QArith_base.Qeq_bool q (QArith_base.Qmake 0 1))
  | JsString s => bool_decide (s ≠ "")
  | JsObject => true
  end.

(** What [/api/rtmp-url] answers:
    [res.status(code).json({ success, message, newRtmpUrl, userId })]. *)
Record RtmpUrlAnswer := mkRtmpUrlAnswer {
  ru_code : Z;
  ru_success : bool;
  ru_message : string;
  ru_newRtmpUrl : option string;
  ru_userId : option string
}.

(** The handler of [/api/rtmp-url] once [userId] is known, given the field
    [rtmpUrl] of the parsed body; the text is the same in both versions of
    [webview.ts].  The [express.json()] middleware that runs before the
    handler, and answers by itself a body it cannot parse, is not part of
    it. *)
Definition rtmp_url_for (userId : string) (rtmpUrl' : JsValue) :
    Async RtmpUrlAnswer :=
  if negb (truthy rtmpUrl') then
    Pure (mkRtmpUrlAnswer 400 false "RTMP URL is required in request body." None None)
  else
    match rtmpUrl' with
    | JsString url =>
        try_catch
          (setRtmpUrlForUser userId url ;;
           Pure (mkRtmpUrlAnswer 200 true "RTMP URL updated successfully for user."
                                 (Some url) (Some userId)))
          (λ error,
             Pure (mkRtmpUrlAnswer 500 false
                     (messageOr error "Failed to update RTMP URL.") None None))
    | _ => Pure (mkRtmpUrlAnswer 400 false "RTMP URL must be a string." None None)
    end.

(** What [/api/stream-info] answers. *)
Record StreamInfo := mkStreamInfo {
  si_code : Z;
  si_rtmpUrl : option string;
  si_streamStatus : option RtmpStreamStatus;
  si_userId : option string;
  si_faceHighlightingEnabled : bool;
  si_hlsUrl : option string;
  si_streamMode : StreamMode;
  si_message : option string
}.

(** The field [streamStoppedStatus] of the application object, built once
    when the application is constructed. *)
Definition streamStoppedStatus (constructedAt : Date) : RtmpStreamStatus :=
  mkStatus RTMP_STREAM_STATUS "stopped" None constructedAt None.

Definition stream_info_unauthenticated (constructedAt : Date) : StreamInfo :=
  mkStreamInfo 401 (Some getDefaultRtmpUrl) (Some (streamStoppedStatus constructedAt))
               None false None hls
               (Some "User not authenticated. Showing default info.").

Definition stream_info_for (w : World) (userId : string) : StreamInfo :=
  mkStreamInfo 200 (getRtmpUrlForUser w userId) (getStreamStatusForUser w userId)
               (Some userId) (isFaceHighlightingEnabledForUser w userId)
               (getHlsUrlForUser w userId) (getStreamModeForUser w userId) None.

(** [src/webview.ts], the routes [/api/rtmp-url] and [/api/stream-info]. *)
Module WebviewApi.

Definition api_rtmp_url (authUserId : option string) (rtmpUrl' : JsValue) :
    Async RtmpUrlAnswer :=
  if truthy_string authUserId then rtmp_url_for (default "" authUserId) rtmpUrl'
  else Pure (mkRtmpUrlAnswer 401 false "User not authenticated." None None).

Definition api_stream_info (constructedAt : Date) (authUserId : option string)
    (w : World) : StreamInfo :=
  if truthy_string authUserId then stream_info_for w (default "" authUserId)
  else stream_info_unauthenticated constructedAt.

End WebviewApi.

(** The same routes in the demo version of [webview.ts]. *)
Module WebviewDemoApi.

Definition api_rtmp_url (authUserId : option string) (rtmpUrl' : JsValue) :
    Async RtmpUrlAnswer :=
  let userId := or_string authUserId WebviewDemo.fallbackUser in
  if decide (userId = "") then
    Pure (mkRtmpUrlAnswer 401 false "User not authenticated." None None)
  else rtmp_url_for userId rtmpUrl'.

Definition api_stream_info (constructedAt : Date) (authUserId : option string)
    (w : World) : StreamInfo :=
  let userId := or_string authUserId WebviewDemo.fallbackUser in
  if decide (userId = "") then stream_info_unauthenticated constructedAt
  else stream_info_for w userId.

End WebviewDemoApi.

(** ** Relations between the world before and after *)

(** Every synchronous update of the program, run from [w] and resumed from
    any world after each [await], relates the world before it to the world
    after it by [R]. *)
Fixpoint preserves {A} (R : World → World → Prop) (m : Async A) (w : World) : Prop :=
  match m with
  | Pure _ | Throw _ => True
  | Get k => preserves R (k w) w
  | Update f k => R w (f w) ∧ preserves R k (f w)
  | Await c k => ∀ r w', preserves R (k r) w'
  end.

(** No entry of the persistent settings has gone. *)
Definition settings_kept (w w' : World) : Prop :=
  ∀ userId, is_Some (persistentUserSettings w !! userId) →
            is_Some (persistentUserSettings w' !! userId).

(** Nothing has changed but what belongs to [userId]: the user's entries in
    the two maps and the state object at [l]. *)
Definition only_for (userId : string) (l : loc) (w w' : World) : Prop :=
  clock w' = clock w
  ∧ (∀ other, other ≠ userId →
       activeUserStates w' !! other = activeUserStates w !! other
       ∧ persistentUserSettings w' !! other = persistentUserSettings w !! other)
  ∧ (∀ l' : loc, l' ≠ l → heap w' !! l' = heap w !! l').

(** The five getters answer for [userId] in [w'] what they answer in [w]. *)
Definition same_answers (userId : string) (w w' : World) : Prop :=
  getRtmpUrlForUser w' userId = getRtmpUrlForUser w userId
  ∧ getStreamStatusForUser w' userId = getStreamStatusForUser w userId
  ∧ isFaceHighlightingEnabledForUser w' userId = isFaceHighlightingEnabledForUser w userId
  ∧ getHlsUrlForUser w' userId = getHlsUrlForUser w userId
  ∧ getStreamModeForUser w' userId = getStreamModeForUser w userId.

(** The environment of a reconnect in flight: while the configuration
    request of the face recognition server is awaited, the user's session
    ends and a new one begins on the handle [s]. *)
Definition reconnect_during_fetch (s : TpaSession) (userId : string)
    (oracle : ∀ c, Settled (reply c)) : ∀ c, World → World * Settled (reply c) :=
  λ c w,
    (match c with
     | Fetch _ _ _ => connected s userId (fst (run (onDisconnected userId) w))
     | _ => w
     end, oracle c).

(** * Properties *)

(** ** Running programs *)

Lemma run_bind {A B} (m : Async A) (f : A → Async B) w :
  run (m ≫= f) w =
  match run m w with
  | (w', Done a) => run (f a) w'
  | (w', Thrown e) => (w', Thrown e)
  | (w', Waiting c k) => (w', Waiting c (λ r, k r ≫= f))
  end.
Proof.
  revert w. induction m as [a|e|k IH|g k IH|c k IH]; intros w; simpl; auto.
Qed.

Lemma complete_of_done {A} env (m : Async A) w w' a :
  run m w = (w', Done a) → complete env m w = (w', Fulfilled a).
Proof.
  revert w. induction m as [b|e|k IH|g k IH|c k IH]; intros w; simpl;
    intros H; try (inversion H; subst; reflexivity); eauto.
Qed.

Lemma complete_of_thrown {A} env (m : Async A) w w' e :
  run m w = (w', Thrown e) → complete env m w = (w', Rejected e).
Proof.
  revert w. induction m as [b|e'|k IH|g k IH|c k IH]; intros w; simpl;
    intros H; try (inversion H; subst; reflexivity); eauto.
Qed.

Lemma lookupState_unfold w userId :
  lookupState w userId =
  match activeUserStates w !! userId with
  | Some l => match heap w !! l with Some s => Some (l, s) | None => None end
  | None => None
  end.
Proof. unfold lookupState. destruct (activeUserStates w !! userId); reflexivity. Qed.

(** Symbolic execution: unfolds the monad, reads the map and the store with
    the lookups known from the context. *)
Ltac step :=
  repeat progress
    (simpl; rewrite ?lookupState_unfold, ?list_lookup_alter_eq; simpl;
     repeat match goal with
            | H : ?x !! ?y = _ |- context [?x !! ?y] => rewrite H
            end).

Lemma world_eta w :
  mkWorld (heap w) (activeUserStates w) (persistentUserSettings w) (clock w)
          (output w) = w.
Proof. destruct w; reflexivity. Qed.

Lemma or_string_nonempty a b : b ≠ "" → or_string a b ≠ "".
Proof.
  intros Hb. unfold or_string. destruct a as [s|]; [|assumption].
  destruct (decide (s = "")); assumption.
Qed.

(** ** Simulation mode *)

(** C5. With a session state for the user, [startStreamForUser] in
    simulation mode returns without suspending (no call of the face
    recognition server, no transport command: nothing at all is sent out),
    stores the requested highlighting flag and the mode in the state object
    and in the persistent settings, and leaves every other field of the
    state object, [streamStatus] included, as it was. *)
Theorem startStream_simulation w userId l st url highlightFaces :
  activeUserStates w !! userId = Some l →
  heap w !! l = Some st →
  ∃ w',
    run (startStreamForUser userId url highlightFaces (Some simulation)) w
      = (w', Done tt)
    ∧ output w' = output w
    ∧ activeUserStates w' = activeUserStates w
    ∧ heap w' !! l =
        Some (mkState (rtmpUrl st) (streamStatus st) (session st) highlightFaces
                      (hlsUrl st) (Some simulation))
    ∧ persistentUserSettings w' !! userId =
        Some (mkSettings
                (ps_rtmpUrl (existingOrDefault (persistentUserSettings w !! userId)))
                (Some simulation) highlightFaces).
Proof.
  intros Hl Hs. unfold startStreamForUser. step.
  destruct highlightFaces as [b|]; step;
    (eexists; split; [reflexivity|]; simpl; repeat split; auto;
     [ rewrite !list_lookup_alter_eq, Hs; reflexivity
     | rewrite lookup_insert_eq; reflexivity ]).
Qed.

Lemma startStream_simulation_witness :
  ∃ w',
    run (startStreamForUser "u3" None (Some true) (Some simulation))
        (connected 7%nat "u3" emptyWorld) = (w', Done tt)
    ∧ output w' = output (connected 7%nat "u3" emptyWorld)
    ∧ activeUserStates w' = activeUserStates (connected 7%nat "u3" emptyWorld)
    ∧ heap w' !! 0%nat =
        Some (mkState defaultRtmpUrl (initialStreamStatus 0) 7%nat (Some true)
                      None (Some simulation))
    ∧ persistentUserSettings w' !! "u3" =
        Some (mkSettings defaultRtmpUrl (Some simulation) (Some true)).
Proof.
  apply (startStream_simulation (connected 7%nat "u3" emptyWorld) "u3" 0%nat
           (mkState defaultRtmpUrl (initialStreamStatus 0) 7%nat (Some true) None
                    (Some hls)) None (Some true)).
  - vm_compute. reflexivity.
  - reflexivity.
Defined.

(** ** Status events *)

(** C7. A status event for a user without an entry in [activeUserStates] is
    dropped: the handler returns normally, the store, the map and the
    persistent settings are the ones before, and the only thing sent out is
    the console warning. *)
Theorem onStatus_without_session w s userId event :
  activeUserStates w !! userId = None →
  ∃ w',
    run (onStatus s userId event) w = (w', Done tt)
    ∧ heap w' = heap w
    ∧ activeUserStates w' = activeUserStates w
    ∧ persistentUserSettings w' = persistentUserSettings w
    ∧ output w' =
        (output w ++
         [ConsoleWarn ("Received stream status for a user with no active state object: "
                       +:+ userId)])%list.
Proof.
  intros Hnone. unfold onStatus. step.
  eexists. split; [reflexivity|]. simpl. auto.
Qed.

Lemma onStatus_without_session_witness :
  ∃ w',
    run (onStatus 7%nat "u9" (mkStatus RTMP_STREAM_STATUS "active" None 5 None))
        emptyWorld = (w', Done tt)
    ∧ heap w' = heap emptyWorld
    ∧ activeUserStates w' = activeUserStates emptyWorld
    ∧ persistentUserSettings w' = persistentUserSettings emptyWorld
    ∧ output w' =
        (output emptyWorld ++
         [ConsoleWarn ("Received stream status for a user with no active state object: "
                       +:+ "u9")])%list.
Proof.
  apply (onStatus_without_session emptyWorld 7%nat "u9"
           (mkStatus RTMP_STREAM_STATUS "active" None 5 None)).
  reflexivity.
Defined.




(** ** Connect and disconnect *)

(** C8. After [onSession] and then [onDisconnected] for a user, the map has
    no entry for the user; [onDisconnected] never touches the persistent
    settings (of this user or of any other) and never throws; and for a user
    who has no entry it changes nothing at all. *)
Theorem connect_then_disconnect w s userId :
  let w1 := connected s userId w in
  let w2 := fst (run (onDisconnected userId) w1) in
  activeUserStates w1 !! userId = Some (length (heap w))
  ∧ snd (run (onDisconnected userId) w1) = Done tt
  ∧ activeUserStates w2 !! userId = None
  ∧ lookupState w2 userId = None
  ∧ persistentUserSettings w2 = persistentUserSettings w1
  ∧ persistentUserSettings w1 = persistentUserSettings w
  ∧ (∀ w0 other,
       persistentUserSettings (fst (run (onDisconnected other) w0))
       = persistentUserSettings w0)
  ∧ (∀ w0 absent,
       activeUserStates w0 !! absent = None →
       run (onDisconnected absent) w0 = (w0, Done tt)).
Proof.
  simpl. unfold connected. simpl.
  split; [apply lookup_insert_eq|].
  split; [reflexivity|].
  split; [apply lookup_delete_eq|].
  split; [rewrite lookupState_unfold; simpl; rewrite lookup_delete_eq; reflexivity|].
  split; [reflexivity|].
  split; [reflexivity|].
  split; [reflexivity|].
  intros w0 absent Habsent.
  unfold set_activeUserStates. rewrite delete_id by assumption.
  rewrite world_eta. reflexivity.
Qed.

Lemma connect_then_disconnect_witness :
  activeUserStates
    (fst (run (onDisconnected "u1") (connected 7%nat "u1" emptyWorld))) !! "u1" = None
  ∧ run (onDisconnected "u2")
        (fst (run (onDisconnected "u1") (connected 7%nat "u1" emptyWorld)))
    = (fst (run (onDisconnected "u1") (connected 7%nat "u1" emptyWorld)), Done tt).
Proof.
  pose proof (connect_then_disconnect emptyWorld 7%nat "u1") as H.
  destruct H as (_ & _ & Hgone & _ & _ & _ & _ & Hnoop).
  split; [exact Hgone|].
  apply Hnoop. vm_compute. reflexivity.
Defined.

(** ** Getters *)

(** C9. [getStreamStatusForUser] always returns a status, although it is
    declared [RtmpStreamStatus | undefined]: the stored one when the user has
    a session state, and otherwise a default built at the call, whose status
    is ['stopped'] and whose timestamp is the current time. *)
Theorem getStreamStatusForUser_present w userId :
  ∃ s,
    getStreamStatusForUser w userId = Some s
    ∧ (∀ l st, activeUserStates w !! userId = Some l → heap w !! l = Some st →
               s = streamStatus st)
    ∧ (activeUserStates w !! userId = None →
       s = mkStatus RTMP_STREAM_STATUS "stopped" None (clock w) None
       ∧ status s = "stopped").
Proof.
  unfold getStreamStatusForUser, activeState. rewrite lookupState_unfold.
  destruct (activeUserStates w !! userId) as [l|] eqn:Hl.
  - destruct (heap w !! l) as [st|] eqn:Hs; simpl.
    + eexists. split; [reflexivity|]. split.
      * intros l' st' Hl' Hs'. inversion Hl'; subst. congruence.
      * intros Habs. discriminate.
    + eexists. split; [reflexivity|]. split.
      * intros l' st' Hl' Hs'. inversion Hl'; subst. congruence.
      * intros Habs. discriminate.
  - simpl. eexists. split; [reflexivity|]. split.
    + intros l st Hl' _. discriminate.
    + intros _. split; reflexivity.
Qed.

Lemma getStreamStatusForUser_present_witness :
  getStreamStatusForUser emptyWorld "nobody"
  = Some (mkStatus RTMP_STREAM_STATUS "stopped" None 0 None).
Proof.
  destruct (getStreamStatusForUser_present emptyWorld "nobody") as (s & Hs & _ & Habs).
  destruct (Habs eq_refl) as [-> _]. exact Hs.
Defined.

(** ** The stream key *)

(** The key is built by the same expression in [index.ts] and in the routes
    of both versions of [webview.ts]. *)
Lemma streamKey_same_everywhere userId :
  Webview.streamKey userId = streamKey userId
  ∧ WebviewDemo.streamKey userId = streamKey userId.
Proof. split; reflexivity. Qed.

Lemma replace_at_signs_injective u1 u2 :
  occurs "_" u1 = false → occurs "_" u2 = false →
  replace_at_signs u1 = replace_at_signs u2 → u1 = u2.
Proof.
  revert u2. induction u1 as [|c1 r1 IH]; intros [|c2 r2]; simpl;
    try discriminate; auto.
  intros H1 H2 Heq.
  apply orb_false_elim in H1 as [Hc1 Hr1].
  apply orb_false_elim in H2 as [Hc2 Hr2].
  injection Heq as Hc Hr. f_equal; [|apply IH; assumption].
  destruct (Ascii.eqb_spec c1 "@") as [->|N1];
    destruct (Ascii.eqb_spec c2 "@") as [->|N2]; auto; subst;
    simpl in *; discriminate.
Qed.

(** Among user ids without an underscore the key is collision-free. *)
Lemma streamKey_injective_without_underscore u1 u2 :
  occurs "_" u1 = false → occurs "_" u2 = false →
  streamKey u1 = streamKey u2 → u1 = u2.
Proof.
  intros H1 H2 Heq. apply replace_at_signs_injective; auto.
  unfold streamKey in Heq. apply (inj (String.append "user_")) in Heq. exact Heq.
Qed.

(** C3. Two different user ids, each with one at sign, get the same stream
    key: the replacement of [@] by [_] merges them. *)
Theorem streamKey_collision :
  "a_b@c.d" ≠ "a@b_c.d"
  ∧ streamKey "a_b@c.d" = "user_a_b_c.d"
  ∧ streamKey "a@b_c.d" = "user_a_b_c.d".
Proof. split; [discriminate|]. split; reflexivity. Qed.

(** ** Stopping the demo *)

(** C2, as stated, fails on [stopStreamForUser]: for a connected user in
    simulation mode it puts the notification on the display and issues the
    transport's stop command, from the orchestrator and through the route of
    [src/webview.ts] alike. *)
Lemma stopStream_simulation_counterexample :
  (streamMode <$> activeState demoWorld "u3") = Some (Some simulation)
  ∧ getStreamModeForUser demoWorld "u3" = simulation
  ∧ (∃ k, run (stopStreamForUser "u3") demoWorld
          = (emit (Issued (StopStream 7%nat))
               (emit (ShowTextWall 7%nat "Stopping RTMP stream via web...") demoWorld),
             Waiting (StopStream 7%nat) k))
  ∧ (∃ k, run (Webview.api_stop_stream (Some "u3")) demoWorld
          = (emit (Issued (StopStream 7%nat))
               (emit (ShowTextWall 7%nat "Stopping RTMP stream via web...") demoWorld),
             Waiting (StopStream 7%nat) k)).
Proof.
  split; [vm_compute; reflexivity|].
  split; [vm_compute; reflexivity|].
  split; eexists; vm_compute; reflexivity.
Qed.

(** C2, amended.  The simulation gate is in the [/api/stop-stream] route of
    the demo version of [webview.ts]: when [getStreamModeForUser] answers
    [simulation] the route answers success at once and nothing is sent out,
    whether the user has a session state or not.  [stopStreamForUser] does
    not look at the mode: without a session state it throws the "no active
    session" error and sends nothing, with one it puts the notification on
    the display and issues the transport's stop command. *)
Theorem stopStream_gate_in_route :
  (∀ w authUserId,
     getStreamModeForUser w (or_string authUserId WebviewDemo.fallbackUser)
       = simulation →
     run (WebviewDemo.api_stop_stream authUserId) w
     = (w, Done (mkHttp 200 true
                   "Demo mode stopped - disconnected from sample content."
                   (Some "demo"))))
  ∧ (∀ w userId,
       activeUserStates w !! userId = None →
       run (stopStreamForUser userId) w = (w, Thrown (Error noActiveSessionToStop)))
  ∧ (∀ w userId l st,
       activeUserStates w !! userId = Some l →
       heap w !! l = Some st →
       ∃ k, run (stopStreamForUser userId) w
            = (emit (Issued (StopStream (session st)))
                 (emit (ShowTextWall (session st) "Stopping RTMP stream via web...") w),
               Waiting (StopStream (session st)) k)).
Proof.
  split; [|split].
  - intros w authUserId Hmode. unfold WebviewDemo.api_stop_stream.
    destruct (decide (or_string authUserId WebviewDemo.fallbackUser = "")) as [E|_].
    + exfalso. revert E. apply or_string_nonempty. discriminate.
    + simpl. rewrite Hmode. reflexivity.
  - intros w userId Hnone. unfold stopStreamForUser. step. reflexivity.
  - intros w userId l st Hl Hs. unfold stopStreamForUser. step.
    eexists. reflexivity.
Qed.

Lemma stopStream_gate_in_route_witness :
  run (WebviewDemo.api_stop_stream (Some "u3")) demoWorld
  = (demoWorld, Done (mkHttp 200 true
                        "Demo mode stopped - disconnected from sample content."
                        (Some "demo")))
  ∧ run (stopStreamForUser "u9") demoWorld
    = (demoWorld, Thrown (Error noActiveSessionToStop))
  ∧ ∃ k, run (stopStreamForUser "u3") demoWorld
         = (emit (Issued (StopStream 7%nat))
              (emit (ShowTextWall 7%nat "Stopping RTMP stream via web...") demoWorld),
            Waiting (StopStream 7%nat) k).
Proof.
  destruct stopStream_gate_in_route as (Hroute & Habsent & Hpresent).
  split; [apply (Hroute demoWorld (Some "u3")); vm_compute; reflexivity|].
  split; [apply (Habsent demoWorld "u9"); vm_compute; reflexivity|].
  apply (Hpresent demoWorld "u3" 0%nat
           (mkState defaultRtmpUrl (initialStreamStatus 0) 7%nat (Some true) None
                    (Some simulation))); vm_compute; reflexivity.
Defined.

(** ** HLS mode *)

(** C4. [startStreamForUser] in HLS mode (asked for, or by default), for a
    user with a session state and whatever highlighting flag is requested:
    the synchronous part does not throw, it reaches the configuration
    request of the face recognition server with the flag stored as [true] in
    the state object and in the persistent settings; and however the
    promises are then settled, the flag is still [true] in both at the end
    and the call ends in success, in a failure of the configuration, or in
    the transport's rejection, never in the mode/flag error. *)
Theorem startStream_hls_forces_highlighting
    w userId l st url highlightFaces streamMode :
  activeUserStates w !! userId = Some l →
  heap w !! l = Some st →
  default hls streamMode = hls →
  let start := startStreamForUser userId url highlightFaces streamMode in
  let ingest := "rtmp://stream.okgodoit.com/live/" +:+ streamKey userId in
  (∃ w1 k,
     run start w =
       (w1, Waiting (Fetch (faceRecognitionServerUrl +:+ "/api/config/" +:+
                            streamKey userId) "POST"
                           (mkConfigBody 5 30 (Some true) None)) k)
     ∧ (faceHighlightingEnabled <$> heap w1 !! l) = Some (Some true)
     ∧ (ps_faceHighlightingEnabled <$> persistentUserSettings w1 !! userId)
         = Some (Some true))
  ∧ ∀ oracle w2 r,
      complete (quiet oracle) start w = (w2, r) →
      (faceHighlightingEnabled <$> heap w2 !! l) = Some (Some true)
      ∧ (ps_faceHighlightingEnabled <$> persistentUserSettings w2 !! userId)
          = Some (Some true)
      ∧ (r = Fulfilled tt
         ∨ (∃ detail, r = Rejected (Error (configureFailed +:+ detail)))
         ∨ (∃ e, oracle (RequestStream (session st) (streamRequest ingest))
                   = Rejected e ∧ r = Rejected e)).
Proof.
  intros Hl Hs Hmode start ingest. subst start ingest.
  assert (Hsm : streamMode = Some hls ∨ streamMode = None).
  { destruct streamMode as [[]|]; simpl in Hmode; try discriminate; auto. }
  split.
  - destruct Hsm as [-> | ->]; unfold startStreamForUser; step;
      (do 2 eexists; split; [reflexivity|]; simpl;
       rewrite !list_lookup_alter_eq, Hs, lookup_insert_eq; simpl; auto).
  - intros oracle w2 r.
    destruct Hsm as [-> | ->]; unfold startStreamForUser; step;
      repeat (step; match goal with
        | |- context [match oracle ?c with _ => _ end] => destruct (oracle c) eqn:?
        | |- context [negb (ok ?r)] => destruct (ok r) eqn:?
        | |- context [truthy_string ?x] => destruct (truthy_string x) eqn:?
        end); step;
      (intros Hrun; inversion Hrun; subst; clear Hrun; simpl;
       rewrite ?list_lookup_alter_eq, ?Hs, ?lookup_insert_eq; simpl;
       split; [reflexivity|]; split; [reflexivity|];
       repeat match goal with
              | x : reply (RequestStream _ _) |- _ => destruct x
              end; eauto 6).
Qed.

Lemma startStream_hls_forces_highlighting_witness :
  ∃ w1 k,
    run (startStreamForUser "u1" None (Some false) (Some hls))
        (connected 7%nat "u1" emptyWorld)
    = (w1, Waiting (Fetch (faceRecognitionServerUrl +:+ "/api/config/" +:+
                           streamKey "u1") "POST"
                          (mkConfigBody 5 30 (Some true) None)) k)
    ∧ (faceHighlightingEnabled <$> heap w1 !! 0%nat) = Some (Some true)
    ∧ (ps_faceHighlightingEnabled <$> persistentUserSettings w1 !! "u1")
        = Some (Some true).
Proof.
  refine (proj1 (startStream_hls_forces_highlighting
                   (connected 7%nat "u1" emptyWorld) "u1" 0%nat
                   (mkState defaultRtmpUrl (initialStreamStatus 0) 7%nat
                            (Some true) None (Some hls))
                   None (Some false) (Some hls) _ _ _)).
  - vm_compute. reflexivity.
  - reflexivity.
  - reflexivity.
Defined.

(** ** A disconnect while a start is in flight *)

(** C1, as stated, fails.  A user connects, starts an HLS stream, and
    disconnects while the configuration request is awaited.  When the
    request succeeds the function goes on with the state object it holds:
    it writes the ingest URL into it, puts the notification on the display
    and issues the transport's request; the call succeeds, or fails with the
    transport's error after a status write into that object.  It never fails
    with the "no active session" error. *)
Lemma startStream_disconnect_counterexample :
  let w0 := connected 7%nat "u4" emptyWorld in
  let start := startStreamForUser "u4" None None (Some hls) in
  let ok_env := disconnect_during_fetch "u4"
                  (replies (Some "https://svc/hls/u4.m3u8") (Fulfilled tt)) in
  let ko_env := disconnect_during_fetch "u4"
                  (replies (Some "https://svc/hls/u4.m3u8") (Rejected (Error "busy"))) in
  let ingest := "rtmp://stream.okgodoit.com/live/user_u4" in
  snd (complete ok_env start w0) = Fulfilled tt
  ∧ snd (complete ok_env start w0) ≠ Rejected (Error noActiveSessionToStart)
  ∧ activeUserStates (fst (complete ok_env start w0)) !! "u4" = None
  ∧ output (fst (complete ok_env start w0)) =
      [ShowTextWall 7%nat "Photo & Streaming App Ready! Face highlighting available.";
       Issued (Fetch "https://stream.okgodoit.com/api/config/user_u4" "POST"
                     (mkConfigBody 5 30 (Some true) None));
       Issued (ResponseJson (mkResponse true "OK"));
       ShowTextWall 7%nat "Starting stream with face highlighting (HLS)...";
       Issued (RequestStream 7%nat (streamRequest ingest))]
  ∧ (rtmpUrl <$> heap (fst (complete ok_env start w0)) !! 0%nat) = Some ingest
  ∧ snd (complete ko_env start w0) = Rejected (Error "busy")
  ∧ (streamStatus <$> heap (fst (complete ko_env start w0)) !! 0%nat)
      = Some (mkStatus RTMP_STREAM_STATUS "error" (Some "busy") 0 None).
Proof.
  vm_compute. repeat split; try reflexivity. discriminate.
Qed.


(** C1, amended.  [startStreamForUser] with highlighting in effect (HLS
    mode, or RTMP mode with the flag set), for a user who disconnects while
    the configuration request is awaited, when the face recognition server
    then accepts the configuration: the map still has no entry for the user
    at the end, and nothing re-checks it; the function goes on with the
    state object it captured, writes the ingest URL (and in HLS mode the
    playback URL) into it, puts the notification on the display, issues the
    transport's request on the captured session handle, and ends as the
    transport's promise does; a rejection is written as an error status
    into the captured object, not into the map. *)
Theorem startStream_disconnect_in_flight
    w userId l st url highlightFaces streamMode
    (oracle : ∀ c, Settled (reply c)) (resp : Response) (cfg : ConfigResult) :
  let mode := default hls streamMode in
  let highlight := if decide (mode = hls) then Some true else highlightFaces in
  let urlToUse := or_string url (or_string (Some (rtmpUrl st)) defaultRtmpUrl) in
  let fetchCall := Fetch (faceRecognitionServerUrl +:+ "/api/config/" +:+
                          streamKey userId) "POST" (configBody mode urlToUse) in
  let ingest := "rtmp://stream.okgodoit.com/live/" +:+ streamKey userId in
  let transportCall := RequestStream (session st) (streamRequest ingest) in
  activeUserStates w !! userId = Some l →
  heap w !! l = Some st →
  mode ≠ simulation →
  truthy_bool highlight = true →
  oracle fetchCall = Fulfilled resp →
  ok resp = true →
  oracle (ResponseJson resp) = Fulfilled cfg →
  ∀ w' r,
    complete (disconnect_during_fetch userId oracle)
             (startStreamForUser userId url highlightFaces streamMode) w = (w', r) →
    activeUserStates w' !! userId = None
    ∧ r = oracle transportCall
    ∧ output w' =
        (output w ++
         [Issued fetchCall; Issued (ResponseJson resp);
          ShowTextWall (session st) (streamModeText mode highlight);
          Issued transportCall] ++
         match oracle transportCall with
         | Fulfilled _ => []
         | Rejected e =>
             [ShowTextWall (session st) ("Failed to start stream: " +:+ message e)]
         end)%list
    ∧ ∃ st',
        heap w' !! l = Some st'
        ∧ rtmpUrl st' = ingest
        ∧ hlsUrl st' =
            (if truthy_string (output_url cfg) && bool_decide (mode = hls)
             then output_url cfg else hlsUrl st)
        ∧ streamStatus st' =
            match oracle transportCall with
            | Fulfilled _ => streamStatus st
            | Rejected e =>
                mkStatus RTMP_STREAM_STATUS "error" (Some (message e)) (clock w) None
            end.
Proof.
  intros mode highlight urlToUse fetchCall ingest transportCall
         Hl Hs Hmode Hhl Hfetch Hok Hjson w' r.
  subst mode highlight urlToUse fetchCall ingest transportCall.
  destruct streamMode as [[]|]; simpl in *; try congruence;
    unfold startStreamForUser; step;
    try (destruct highlightFaces as [[]|]; simpl in Hhl; try discriminate);
    step; rewrite Hfetch; step; rewrite Hok; step; rewrite Hjson; step;
    (destruct (truthy_string (output_url cfg)) eqn:Hout; step;
     match goal with
     | |- context [match oracle ?c with _ => _ end] =>
         destruct (oracle c) as [[]|e] eqn:Htransport
     end; step;
     intros Hrun; inversion Hrun; subst; clear Hrun; simpl;
     rewrite ?lookup_delete_eq, ?list_lookup_alter_eq, ?Hs; simpl;
     rewrite <- ?app_assoc; simpl;
     repeat split; try reflexivity;
     (eexists; split; [reflexivity|]; simpl; repeat split; reflexivity)).
Qed.

Lemma startStream_disconnect_in_flight_witness :
  let w0 := connected 7%nat "u4" emptyWorld in
  let env := disconnect_during_fetch "u4"
               (replies (Some "https://svc/hls/u4.m3u8") (Rejected (Error "busy"))) in
  activeUserStates
    (fst (complete env (startStreamForUser "u4" None None (Some hls)) w0)) !! "u4"
    = None
  ∧ snd (complete env (startStreamForUser "u4" None None (Some hls)) w0)
    = Rejected (Error "busy").
Proof.
  intros w0 env.
  destruct (startStream_disconnect_in_flight w0 "u4" 0%nat
              (mkState defaultRtmpUrl (initialStreamStatus 0) 7%nat (Some true)
                       None (Some hls))
              None None (Some hls)
              (replies (Some "https://svc/hls/u4.m3u8") (Rejected (Error "busy")))
              (mkResponse true "OK") (mkConfigResult (Some "https://svc/hls/u4.m3u8"))
              ltac:(vm_compute; reflexivity) eq_refl ltac:(discriminate)
              eq_refl eq_refl eq_refl eq_refl _ _ (surjective_pairing _))
    as (Hgone & Hr & _).
  split; [exact Hgone | exact Hr].
Defined.

(** ** The playback URL *)

Lemma same_hlsUrl_refl w : same_hlsUrl w w.
Proof. split; auto. Qed.

Lemma same_hlsUrl_trans w1 w2 w3 :
  same_hlsUrl w1 w2 → same_hlsUrl w2 w3 → same_hlsUrl w1 w3.
Proof.
  intros [Hm1 Hh1] [Hm2 Hh2]. split; [congruence|].
  intros l. rewrite Hh2. apply Hh1.
Qed.

Lemma same_hlsUrl_alter (f : UserStreamState → UserStreamState) l w w' :
  (∀ s, hlsUrl (f s) = hlsUrl s) →
  activeUserStates w' = activeUserStates w →
  heap w' = alter f l (heap w) →
  same_hlsUrl w w'.
Proof.
  intros Hf Hm Hh. split; [assumption|]. intros l'. rewrite Hh.
  destruct (decide (l = l')) as [->|Hne].
  - rewrite list_lookup_alter_eq. destruct (heap w !! l'); simpl; [|reflexivity].
    f_equal. apply Hf.
  - rewrite list_lookup_alter_ne by assumption. reflexivity.
Qed.

Lemma same_hlsUrl_heap w w' :
  activeUserStates w' = activeUserStates w → heap w' = heap w → same_hlsUrl w w'.
Proof. intros Hm Hh. split; [assumption|]. intros l. rewrite Hh. reflexivity. Qed.

Lemma same_hlsUrl_getHlsUrlForUser w w' userId :
  same_hlsUrl w w' → getHlsUrlForUser w' userId = getHlsUrlForUser w userId.
Proof.
  intros [Hm Hh]. unfold getHlsUrlForUser, activeState.
  rewrite !lookupState_unfold, Hm.
  destruct (activeUserStates w !! userId) as [l|]; [|reflexivity].
  specialize (Hh l).
  destruct (heap w' !! l), (heap w !! l); simpl in *; congruence.
Qed.

Lemma keeps_hlsUrl_complete {A} env (m : Async A) w :
  env_keeps_hlsUrl env → keeps_hlsUrl m w →
  same_hlsUrl w (fst (complete env m w)).
Proof.
  intros Henv. revert w.
  induction m as [a|e|k IH|f k IH|c k IH]; intros w; simpl.
  - intros _. apply same_hlsUrl_refl.
  - intros _. apply same_hlsUrl_refl.
  - apply IH.
  - intros [Hf Hk]. eapply same_hlsUrl_trans; [exact Hf|]. apply IH, Hk.
  - intros Hk. specialize (Henv c (emit (Issued c) w)).
    destruct (env c (emit (Issued c) w)) as [w' r]. simpl in Henv.
    eapply same_hlsUrl_trans; [|apply IH, Hk].
    eapply same_hlsUrl_trans; [|exact Henv].
    apply same_hlsUrl_heap; reflexivity.
Qed.

Ltac frame :=
  first
    [ apply same_hlsUrl_heap; reflexivity
    | eapply same_hlsUrl_alter; [|reflexivity|reflexivity]; intros []; reflexivity ].

Ltac keeps :=
  repeat (simpl;
          match goal with
          | |- True => exact I
          | |- _ ∧ _ => split
          | |- same_hlsUrl _ _ => frame
          | |- ∀ _, _ => intro
          | |- context [lookupState ?w ?u] =>
              destruct (lookupState w u) as [[? ?]|]
          | |- context [match ?x with Fulfilled _ => _ | Rejected _ => _ end] =>
              destruct x
          | |- context [match ?x with Some _ => _ | None => _ end] =>
              destruct x
          | |- context [match ?x with Omitted => _ | Given _ => _ end] =>
              destruct x
          | |- context [truthy_string ?x && _] => destruct (truthy_string x)
          | |- context [if ?b then _ else _] => destruct b
          end).

Lemma keeps_stopStreamForUser userId w : keeps_hlsUrl (stopStreamForUser userId) w.
Proof. unfold stopStreamForUser. keeps. Qed.

Lemma keeps_updatePersistentSettingsForUser userId settings w :
  keeps_hlsUrl (updatePersistentSettingsForUser userId settings) w.
Proof. unfold updatePersistentSettingsForUser. keeps. Qed.

Lemma keeps_setRtmpUrlForUser userId newUrl w :
  keeps_hlsUrl (setRtmpUrlForUser userId newUrl) w.
Proof. unfold setRtmpUrlForUser. keeps. Qed.

Lemma keeps_onStatus s userId event w : keeps_hlsUrl (onStatus s userId event) w.
Proof. unfold onStatus. keeps. Qed.

Lemma keeps_startStreamForUser userId url highlightFaces mode w :
  mode ≠ hls →
  keeps_hlsUrl (startStreamForUser userId url highlightFaces (Some mode)) w.
Proof.
  intros Hmode. unfold startStreamForUser.
  destruct mode; try congruence; keeps.
Qed.

Lemma quiet_keeps_hlsUrl oracle : env_keeps_hlsUrl (quiet oracle).
Proof. intros c w. apply same_hlsUrl_refl. Qed.

(** C10. Stopping a stream, starting one in RTMP or simulation mode,
    updating the settings or the RTMP URL, and a status event leave
    [getHlsUrlForUser] of every user as it was, whatever replies arrive and
    whichever of these handlers run in between.  So a playback URL stored by
    an HLS start is still reported after the stream has stopped and after
    the user has switched to RTMP mode. *)
Theorem hlsUrl_never_cleared env w userId other :
  env_keeps_hlsUrl env →
  getHlsUrlForUser (fst (complete env (stopStreamForUser userId) w)) other
    = getHlsUrlForUser w other
  ∧ (∀ url highlightFaces mode,
       mode ≠ hls →
       getHlsUrlForUser
         (fst (complete env
                 (startStreamForUser userId url highlightFaces (Some mode)) w)) other
       = getHlsUrlForUser w other)
  ∧ (∀ settings,
       getHlsUrlForUser
         (fst (complete env (updatePersistentSettingsForUser userId settings) w)) other
       = getHlsUrlForUser w other)
  ∧ (∀ newUrl,
       getHlsUrlForUser
         (fst (complete env (setRtmpUrlForUser userId newUrl) w)) other
       = getHlsUrlForUser w other)
  ∧ (∀ s event,
       getHlsUrlForUser (fst (complete env (onStatus s userId event) w)) other
       = getHlsUrlForUser w other)
  ∧ getHlsUrlForUser afterHlsStart "u1" = Some playbackUrl
  ∧ getHlsUrlForUser afterStop "u1" = Some playbackUrl
  ∧ (status <$> getStreamStatusForUser afterStop "u1") = Some "stopped"
  ∧ getHlsUrlForUser afterRtmpStart "u1" = Some playbackUrl
  ∧ getStreamModeForUser afterRtmpStart "u1" = rtmp.
Proof.
  intros Henv.
  split; [apply same_hlsUrl_getHlsUrlForUser, keeps_hlsUrl_complete;
          [exact Henv | apply keeps_stopStreamForUser]|].
  split; [intros url highlightFaces mode Hmode;
          apply same_hlsUrl_getHlsUrlForUser, keeps_hlsUrl_complete;
          [exact Henv | apply keeps_startStreamForUser, Hmode]|].
  split; [intros settings;
          apply same_hlsUrl_getHlsUrlForUser, keeps_hlsUrl_complete;
          [exact Henv | apply keeps_updatePersistentSettingsForUser]|].
  split; [intros newUrl;
          apply same_hlsUrl_getHlsUrlForUser, keeps_hlsUrl_complete;
          [exact Henv | apply keeps_setRtmpUrlForUser]|].
  split; [intros s event;
          apply same_hlsUrl_getHlsUrlForUser, keeps_hlsUrl_complete;
          [exact Henv | apply keeps_onStatus]|].
  vm_compute. repeat split; reflexivity.
Qed.

Lemma hlsUrl_never_cleared_witness :
  getHlsUrlForUser
    (fst (complete (quiet (replies None (Fulfilled tt)))
                   (stopStreamForUser "u1") afterHlsStart)) "u1"
  = getHlsUrlForUser afterHlsStart "u1".
Proof.
  refine (proj1 (hlsUrl_never_cleared (quiet (replies None (Fulfilled tt)))
                   afterHlsStart "u1" "u1" _)).
  intros c w. split; reflexivity.
Defined.

(** ** The references of the map *)

Lemma maintains_complete {A} (P : World → Prop) env (m : Async A) w :
  (∀ c w0, P w0 → P (fst (env c w0))) →
  (∀ e w0, P w0 → P (emit e w0)) →
  P w → maintains P m w → P (fst (complete env m w)).
Proof.
  intros Henv Hemit. revert w.
  induction m as [a|e|k IH|f k IH|c k IH]; intros w Hw; simpl; auto.
  - intros [Hf Hk]. apply IH; assumption.
  - intros Hk. specialize (Henv c (emit (Issued c) w) (Hemit _ _ Hw)).
    destruct (env c (emit (Issued c) w)) as [w' r]. simpl in Henv.
    apply IH; auto.
Qed.

Lemma well_formed_same_shape w w' :
  activeUserStates w' = activeUserStates w →
  length (heap w') = length (heap w) →
  well_formed w → well_formed w'.
Proof.
  intros Hm Hlen Hwf userId l Hl. rewrite Hlen. apply (Hwf userId).
  rewrite <- Hm. exact Hl.
Qed.

Lemma well_formed_emit e w : well_formed w → well_formed (emit e w).
Proof. apply well_formed_same_shape; reflexivity. Qed.

Lemma well_formed_lookupState w userId l :
  well_formed w → activeUserStates w !! userId = Some l →
  ∃ st, lookupState w userId = Some (l, st).
Proof.
  intros Hwf Hl. rewrite lookupState_unfold, Hl.
  destruct (lookup_lt_is_Some_2 (heap w) l (Hwf _ _ Hl)) as [st Hst].
  exists st. rewrite Hst. reflexivity.
Qed.

Ltac shape :=
  match goal with
  | H : well_formed ?w |- well_formed _ =>
      apply (well_formed_same_shape w); [reflexivity| |exact H];
      simpl; rewrite ?length_alter; reflexivity
  end.

Ltac invariant :=
  repeat (simpl;
          match goal with
          | |- True => exact I
          | |- well_formed ?w' ∧ _ =>
              let H := fresh "Hwf" in
              assert (H : well_formed w') by shape; split; [exact H|]
          | |- ∀ _, _ => intro
          | |- context [lookupState ?w ?u] =>
              destruct (lookupState w u) as [[? ?]|]
          | |- context [match ?x with Fulfilled _ => _ | Rejected _ => _ end] =>
              destruct x
          | |- context [match ?x with Some _ => _ | None => _ end] =>
              destruct x
          | |- context [match ?x with Omitted => _ | Given _ => _ end] =>
              destruct x
          | |- context [if ?b then _ else _] => destruct b
          end).

Lemma maintains_stopStreamForUser userId w :
  well_formed w → maintains well_formed (stopStreamForUser userId) w.
Proof. intros Hwf. unfold stopStreamForUser. invariant. Qed.

Lemma maintains_startStreamForUser userId url highlightFaces mode w :
  well_formed w →
  maintains well_formed (startStreamForUser userId url highlightFaces mode) w.
Proof. intros Hwf. unfold startStreamForUser. invariant. Qed.

Lemma maintains_updatePersistentSettingsForUser userId settings w :
  well_formed w →
  maintains well_formed (updatePersistentSettingsForUser userId settings) w.
Proof. intros Hwf. unfold updatePersistentSettingsForUser. invariant. Qed.

Lemma maintains_setRtmpUrlForUser userId newUrl w :
  well_formed w → maintains well_formed (setRtmpUrlForUser userId newUrl) w.
Proof. intros Hwf. unfold setRtmpUrlForUser. invariant. Qed.

Lemma maintains_onStatus s userId event w :
  well_formed w → maintains well_formed (onStatus s userId event) w.
Proof. intros Hwf. unfold onStatus. invariant. Qed.

Lemma maintains_onDisconnected userId w :
  well_formed w → maintains well_formed (onDisconnected userId) w.
Proof.
  intros Hwf. simpl. split; [|exact I].
  intros u l. simpl. intros Hl.
  apply lookup_delete_Some in Hl as [_ Hl]. exact (Hwf u l Hl).
Qed.

Lemma maintains_onSession s userId w :
  well_formed w → maintains well_formed (onSession s userId) w.
Proof.
  intros Hwf. unfold onSession. simpl.
  assert (Hnew : well_formed
            (set_activeUserStates (<[userId:=length (heap w)]> (activeUserStates w))
               (set_heap
                  (heap w ++
                   [mkState
                      (or_string (ps_rtmpUrl <$> persistentUserSettings w !! userId)
                                 defaultRtmpUrl)
                      (initialStreamStatus (clock w)) s
                      (Some (default true (persistentUserSettings w !! userId
                                           ≫= ps_faceHighlightingEnabled)))
                      None
                      (Some (default hls (persistentUserSettings w !! userId
                                          ≫= ps_streamMode)))]) w))).
  { intros u l. simpl. rewrite length_app. simpl. intros Hl.
    apply lookup_insert_Some in Hl as [[_ <-]|[_ Hl]]; [lia|].
    specialize (Hwf u l Hl). lia. }
  split; [exact Hnew|]. split; [|exact I].
  apply (well_formed_same_shape _ _ eq_refl eq_refl Hnew).
Qed.

(** Every handler keeps the references of the map inside the store, so the
    state object of a user with an entry can always be read. *)
Lemma well_formed_emptyWorld : well_formed emptyWorld.
Proof. intros u l Hl. simpl in Hl. rewrite lookup_empty in Hl. discriminate. Qed.

Lemma well_formed_connected s userId w :
  well_formed w → well_formed (connected s userId w).
Proof.
  intros Hwf. unfold connected.
  pose proof (maintains_complete well_formed (quiet (replies None (Fulfilled tt)))
                (onSession s userId) w) as H.
  rewrite (complete_of_done _ _ w (fst (run (onSession s userId) w)) tt) in H
    by reflexivity.
  apply H; auto using well_formed_emit, maintains_onSession.
Qed.

(** ** The demo route *)

(** In the demo version of [webview.ts] a start request in simulation mode is
    answered by the route itself: [startStreamForUser] is not called and the
    world is as before. *)
Lemma demo_start_route_answers_itself w authUserId url highlightFaces :
  run (WebviewDemo.api_start_stream authUserId url highlightFaces (Some simulation)) w
  = (w, Done (mkHttp 200 true "Demo mode activated - streaming from sample content."
                     (Some "demo"))).
Proof.
  unfold WebviewDemo.api_start_stream.
  destruct (decide (or_string authUserId WebviewDemo.fallbackUser = "")) as [E|_].
  - exfalso. revert E. apply or_string_nonempty. discriminate.
  - reflexivity.
Qed.

(** * Further properties of the code *)

(** The map and the store are all [lookupState] reads. *)
Lemma lookupState_set_persistentUserSettings m w userId :
  lookupState (set_persistentUserSettings m w) userId = lookupState w userId.
Proof. reflexivity. Qed.

Lemma lookupState_emit e w userId :
  lookupState (emit e w) userId = lookupState w userId.
Proof. reflexivity. Qed.

Lemma lookupState_Some w userId l st :
  lookupState w userId = Some (l, st) ↔
  activeUserStates w !! userId = Some l ∧ heap w !! l = Some st.
Proof.
  rewrite lookupState_unfold.
  destruct (activeUserStates w !! userId) as [l'|]; [|split; [discriminate|intros [? _]; discriminate]].
  destruct (heap w !! l') as [st'|] eqn:Hs; split.
  - intros H. inversion H; subst. auto.
  - intros [H1 H2]. inversion H1; subst. congruence.
  - discriminate.
  - intros [H1 H2]. inversion H1; subst. congruence.
Qed.

(** ** Setting the RTMP URL *)



(** ** How a route wraps the orchestrator *)

Lemma run_try_catch {A} (m : Async A) h w :
  run (try_catch m h) w =
  match run m w with
  | (w', Done a) => (w', Done a)
  | (w', Thrown e) => run (h e) w'
  | (w', Waiting c k) => (w', Waiting c (λ r, try_catch (k r) h))
  end.
Proof.
  revert w. induction m as [a|e|k IH|g k IH|c k IH]; intros w; simpl; auto.
Qed.

Lemma run_Get_Pure_bind {A B} (g : World → A) (f : A → Async B) w :
  run (Get (λ w0, Pure (g w0)) ≫= f) w = run (f (g w)) w.
Proof. reflexivity. Qed.

Lemma complete_Get_Pure_bind {A B} env (g : World → A) (f : A → Async B) w :
  complete env (Get (λ w0, Pure (g w0)) ≫= f) w = complete env (f (g w)) w.
Proof. reflexivity. Qed.

Lemma complete_bind {A B} env (m : Async A) (f : A → Async B) w :
  complete env (m ≫= f) w =
  match complete env m w with
  | (w', Fulfilled a) => complete env (f a) w'
  | (w', Rejected e) => (w', Rejected e)
  end.
Proof.
  revert w. induction m as [a|e|k IH|g k IH|c k IH]; intros w; simpl; auto.
  destruct (env c (emit (Issued c) w)) as [w' r]. apply IH.
Qed.

Lemma complete_try_catch {A} env (m : Async A) h w :
  complete env (try_catch m h) w =
  match complete env m w with
  | (w', Fulfilled a) => (w', Fulfilled a)
  | (w', Rejected e) => complete env (h e) w'
  end.
Proof.
  revert w. induction m as [a|e|k IH|g k IH|c k IH]; intros w; simpl; auto.
  destruct (env c (emit (Issued c) w)) as [w' r]. apply IH.
Qed.

Lemma setRtmpUrlForUser_done w userId newUrl :
  newUrl ≠ "" →
  ∃ w',
    run (setRtmpUrlForUser userId newUrl) w = (w', Done tt)
    ∧ getRtmpUrlForUser w' userId = Some newUrl.
Proof.
  intros Hne. unfold setRtmpUrlForUser.
  destruct (decide (newUrl = "")) as [E|_]; [contradiction|].
  destruct (negb (String.prefix "rtmp://" newUrl)
            && negb (String.prefix "rtmps://" newUrl)); simpl;
    rewrite ?lookupState_set_persistentUserSettings, ?lookupState_emit;
    destruct (lookupState w userId) as [[l st]|]; simpl;
    (eexists; split; [reflexivity|];
     unfold getRtmpUrlForUser; simpl; rewrite lookup_insert_eq; reflexivity).
Qed.

(** X2. The handler of the [/api/rtmp-url] route of [src/webview.ts], for a
    request whose body has been parsed and whatever the value of its field
    [rtmpUrl] is, never answers 500: it answers 401, 400 or 200.  It answers
    200 exactly when the user is authenticated and the field holds a
    non-empty string, and then [getRtmpUrlForUser] answers that string; in
    every other case nothing has changed. *)
Theorem api_rtmp_url_validates w authUserId field :
  ∃ w' answer,
    run (WebviewApi.api_rtmp_url authUserId field) w = (w', Done answer)
    ∧ (ru_code answer = 200 ∨ ru_code answer = 400 ∨ ru_code answer = 401)
    ∧ (ru_code answer ≠ 200 → w' = w)
    ∧ (ru_code answer = 200 ↔
       ∃ userId url, authUserId = Some userId ∧ userId ≠ ""
                     ∧ field = JsString url ∧ url ≠ "")
    ∧ (∀ userId url,
         authUserId = Some userId → field = JsString url → ru_code answer = 200 →
         ru_newRtmpUrl answer = Some url
         ∧ getRtmpUrlForUser w' userId = Some url).
Proof.
  assert (Hrefuse : ∀ code msg,
            code ≠ 200 → (code = 400 ∨ code = 401) →
            (¬ ∃ userId url, authUserId = Some userId ∧ userId ≠ ""
                             ∧ field = JsString url ∧ url ≠ "") →
            ∃ w' answer,
              (w, Done (mkRtmpUrlAnswer code false msg None None)) = (w', Done answer)
              ∧ (ru_code answer = 200 ∨ ru_code answer = 400 ∨ ru_code answer = 401)
              ∧ (ru_code answer ≠ 200 → w' = w)
              ∧ (ru_code answer = 200 ↔
                 ∃ userId url, authUserId = Some userId ∧ userId ≠ ""
                               ∧ field = JsString url ∧ url ≠ "")
              ∧ (∀ userId url,
                   authUserId = Some userId → field = JsString url →
                   ru_code answer = 200 →
                   ru_newRtmpUrl answer = Some url
                   ∧ getRtmpUrlForUser w' userId = Some url)).
  { intros code msg Hcode Hcodes Hnot. do 2 eexists. split; [reflexivity|]. simpl.
    split; [tauto|]. split; [reflexivity|]. split; [tauto|].
    intros; contradiction. }
  unfold WebviewApi.api_rtmp_url.
  destruct authUserId as [userId|]; simpl.
  2: { apply Hrefuse; [discriminate|auto|]. intros (? & ? & ? & _); discriminate. }
  destruct (bool_decide (userId ≠ "")) eqn:Hu; simpl.
  2: { apply bool_decide_eq_false in Hu.
       apply Hrefuse; [discriminate|auto|].
       intros (u & ? & Hsome & Hne & _). inversion Hsome; subst. auto. }
  apply bool_decide_eq_true in Hu.
  unfold rtmp_url_for.
  destruct field as [| |b|q|url|];
    try (destruct (negb (truthy _)); simpl;
         (apply Hrefuse; [discriminate|auto|]);
         intros (? & ? & _ & _ & ? & _); discriminate).
  unfold truthy.
  destruct (bool_decide (url ≠ "")) eqn:Hurl; cbn [negb];
    [apply bool_decide_eq_true in Hurl | apply bool_decide_eq_false in Hurl].
  - destruct (setRtmpUrlForUser_done w userId url Hurl) as (w' & Hrun & Hget).
    rewrite run_try_catch, run_bind, Hrun. simpl.
    do 2 eexists. split; [reflexivity|]. simpl.
    split; [auto|]. split; [congruence|]. split.
    + split; [|reflexivity]. intros _. exists userId, url. auto.
    + intros u url' Hu' Hb _. inversion Hu'; inversion Hb; subst. auto.
  - apply Hrefuse; [discriminate|auto|].
    intros (? & url' & _ & _ & Hb & Hne). inversion Hb; subst. auto.
Qed.

(** X3. The start and stop routes of [src/webview.ts] never reject: for an
    authenticated user they end when the orchestrator's call ends, in the
    same world, with 200 when it succeeded and with 500 and the error's
    message (or the route's own text when the message is empty) when it
    threw.  Without a user id they answer 401 and nothing happens. *)
Theorem routes_wrap_orchestrator env w userId url highlightFaces streamMode :
  userId ≠ "" →
  complete env (Webview.api_start_stream (Some userId) url highlightFaces streamMode) w
  = (fst (complete env (startStreamForUser userId url highlightFaces streamMode) w),
     Fulfilled
       match snd (complete env
                    (startStreamForUser userId url highlightFaces streamMode) w) with
       | Fulfilled _ => mkHttp 200 true "Stream start requested for user." None
       | Rejected e =>
           mkHttp 500 false (messageOr e "Failed to start stream for user.") None
       end)
  ∧ complete env (Webview.api_stop_stream (Some userId)) w
    = (fst (complete env (stopStreamForUser userId) w),
       Fulfilled
         match snd (complete env (stopStreamForUser userId) w) with
         | Fulfilled _ => mkHttp 200 true "Stream stop requested for user." None
         | Rejected e =>
             mkHttp 500 false (messageOr e "Failed to stop stream for user.") None
         end)
  ∧ (∀ missing, missing = None ∨ missing = Some "" →
       run (Webview.api_start_stream missing url highlightFaces streamMode) w
       = (w, Done (mkHttp 401 false "User not authenticated. Cannot start stream." None))
       ∧ run (Webview.api_stop_stream missing) w
         = (w, Done (mkHttp 401 false "User not authenticated. Cannot stop stream." None))).
Proof.
  intros Hne.
  assert (Htruthy : truthy_string (Some userId) = true).
  { simpl. apply bool_decide_eq_true. exact Hne. }
  unfold Webview.api_start_stream, Webview.api_stop_stream.
  rewrite Htruthy. simpl default.
  split; [|split].
  - rewrite complete_try_catch.
    change (startStreamForUser userId url highlightFaces streamMode ;;
            Pure (mkHttp 200 true "Stream start requested for user." None))
      with (startStreamForUser userId url highlightFaces streamMode
            ≫= λ _, Pure (mkHttp 200 true "Stream start requested for user." None)).
    rewrite complete_bind.
    destruct (complete env (startStreamForUser userId url highlightFaces streamMode) w)
      as [w' [[]|e]]; reflexivity.
  - rewrite complete_try_catch.
    change (stopStreamForUser userId ;;
            Pure (mkHttp 200 true "Stream stop requested for user." None))
      with (stopStreamForUser userId
            ≫= λ _, Pure (mkHttp 200 true "Stream stop requested for user." None)).
    rewrite complete_bind.
    destruct (complete env (stopStreamForUser userId) w) as [w' [[]|e]]; reflexivity.
  - intros missing [-> | ->]; split; reflexivity.
Qed.

Lemma routes_wrap_orchestrator_witness :
  complete (quiet (replies None (Fulfilled tt))) (Webview.api_stop_stream (Some "u9"))
           emptyWorld
  = (emptyWorld, Fulfilled (mkHttp 500 false noActiveSessionToStop None)).
Proof.
  destruct (routes_wrap_orchestrator (quiet (replies None (Fulfilled tt))) emptyWorld
              "u9" None None None ltac:(discriminate)) as (_ & Hstop & _).
  exact Hstop.
Defined.

(** X4. Without an entry in [activeUserStates], starting and stopping fail
    with the "no active session" errors before anything is written or sent;
    through the routes the user gets a 500 with that text. *)
Theorem without_session_nothing_happens w userId url highlightFaces streamMode :
  activeUserStates w !! userId = None →
  run (startStreamForUser userId url highlightFaces streamMode) w
    = (w, Thrown (Error noActiveSessionToStart))
  ∧ run (stopStreamForUser userId) w = (w, Thrown (Error noActiveSessionToStop))
  ∧ (userId ≠ "" →
     run (Webview.api_start_stream (Some userId) url highlightFaces streamMode) w
       = (w, Done (mkHttp 500 false noActiveSessionToStart None))
     ∧ run (Webview.api_stop_stream (Some userId)) w
       = (w, Done (mkHttp 500 false noActiveSessionToStop None))
     ∧ (streamMode ≠ Some simulation →
        run (WebviewDemo.api_start_stream (Some userId) url highlightFaces streamMode) w
        = (w, Done (mkHttp 500 false noActiveSessionToStart None)))
     ∧ (getStreamModeForUser w userId ≠ simulation →
        run (WebviewDemo.api_stop_stream (Some userId)) w
        = (w, Done (mkHttp 500 false noActiveSessionToStop None)))).
Proof.
  intros Hnone.
  assert (Hstart : run (startStreamForUser userId url highlightFaces streamMode) w
                   = (w, Thrown (Error noActiveSessionToStart))).
  { unfold startStreamForUser. step. reflexivity. }
  assert (Hstop : run (stopStreamForUser userId) w
                  = (w, Thrown (Error noActiveSessionToStop))).
  { unfold stopStreamForUser. step. reflexivity. }
  split; [exact Hstart|]. split; [exact Hstop|].
  intros Hne.
  assert (Htruthy : truthy_string (Some userId) = true).
  { simpl. apply bool_decide_eq_true. exact Hne. }
  assert (Hor : or_string (Some userId) WebviewDemo.fallbackUser = userId).
  { unfold or_string. destruct (decide (userId = "")); [contradiction|reflexivity]. }
  unfold Webview.api_start_stream, Webview.api_stop_stream,
    WebviewDemo.api_start_stream, WebviewDemo.api_stop_stream.
  rewrite Htruthy, Hor. simpl default.
  destruct (decide (userId = "")) as [E|_]; [contradiction|].
  repeat split.
  - rewrite run_try_catch, run_bind, Hstart. reflexivity.
  - rewrite run_try_catch, run_bind, Hstop. reflexivity.
  - intros Hsim. destruct (decide (streamMode = Some simulation)); [contradiction|].
    rewrite run_try_catch, run_bind, Hstart. reflexivity.
  - intros Hsim. rewrite run_Get_Pure_bind.
    destruct (decide (getStreamModeForUser w userId = simulation)); [contradiction|].
    rewrite run_try_catch, run_bind, Hstop. reflexivity.
Qed.

Lemma without_session_nothing_happens_witness :
  run (startStreamForUser "u2" (Some "rtmp://dest/x") (Some false) (Some rtmp)) emptyWorld
  = (emptyWorld, Thrown (Error noActiveSessionToStart)).
Proof.
  refine (proj1 (without_session_nothing_happens emptyWorld "u2"
                   (Some "rtmp://dest/x") (Some false) (Some rtmp) _)).
  reflexivity.
Defined.

(** X5. The demo version of [webview.ts] never answers 401 on its start and
    stop routes and never rejects: a request without a user id is served as
    the user [alex1115alex@gmail.com], with the very program that serves
    this user when authenticated, and every answer is a 200 or a 500. *)
Theorem demo_routes_serve_fallback_user env w authUserId url highlightFaces streamMode :
  WebviewDemo.api_start_stream None url highlightFaces streamMode
    = WebviewDemo.api_start_stream (Some WebviewDemo.fallbackUser) url highlightFaces
        streamMode
  ∧ WebviewDemo.api_start_stream (Some "") url highlightFaces streamMode
    = WebviewDemo.api_start_stream (Some WebviewDemo.fallbackUser) url highlightFaces
        streamMode
  ∧ WebviewDemo.api_stop_stream None
    = WebviewDemo.api_stop_stream (Some WebviewDemo.fallbackUser)
  ∧ WebviewDemo.api_stop_stream (Some "")
    = WebviewDemo.api_stop_stream (Some WebviewDemo.fallbackUser)
  ∧ (∃ w' answer,
       complete env
         (WebviewDemo.api_start_stream authUserId url highlightFaces streamMode) w
       = (w', Fulfilled answer)
       ∧ (code answer = 200 ∨ code answer = 500))
  ∧ (∃ w' answer,
       complete env (WebviewDemo.api_stop_stream authUserId) w = (w', Fulfilled answer)
       ∧ (code answer = 200 ∨ code answer = 500)).
Proof.
  split; [reflexivity|]. split; [reflexivity|].
  split; [reflexivity|]. split; [reflexivity|].
  assert (Hne : or_string authUserId WebviewDemo.fallbackUser ≠ "").
  { apply or_string_nonempty. discriminate. }
  unfold WebviewDemo.api_start_stream, WebviewDemo.api_stop_stream.
  destruct (decide (or_string authUserId WebviewDemo.fallbackUser = ""))
    as [E|_]; [contradiction|].
  split.
  - destruct (decide (streamMode = Some simulation)).
    + do 2 eexists. split; [reflexivity|]. auto.
    + rewrite complete_try_catch.
      match goal with
      | |- context [complete env (?m ;; ?n) w] =>
          change (m ;; n) with (m ≫= λ _, n)
      end.
      rewrite complete_bind.
      destruct (complete env (startStreamForUser _ url highlightFaces streamMode) w)
        as [w' [[]|e]]; simpl; do 2 eexists; (split; [reflexivity|]); auto.
  - rewrite complete_Get_Pure_bind.
    destruct (decide (getStreamModeForUser w
                        (or_string authUserId WebviewDemo.fallbackUser) = simulation)).
    + do 2 eexists. split; [reflexivity|]. auto.
    + rewrite complete_try_catch.
      match goal with
      | |- context [complete env (?m ;; ?n) w] =>
          change (m ;; n) with (m ≫= λ _, n)
      end.
      rewrite complete_bind.
      destruct (complete env (stopStreamForUser _) w)
        as [w' [[]|e]]; simpl; do 2 eexists; (split; [reflexivity|]); auto.
Qed.

(** ** Starting a stream *)



(** X7. A start with highlighting in effect whose configuration fails: the
    request is rejected, the server answers with a status that is not ok, or
    the body of the answer cannot be read.  The call fails with "Failed to
    configure face recognition: " followed by the detail (for an answer that
    is not ok the detail repeats the prefix before the status text); no
    notification is shown and no transport command is issued; the state
    object keeps its URL, playback URL and status, the status is not set to
    an error; the mode and the flag have already been written to the state
    object and to the persistent settings. *)
Theorem startStream_configuration_fails w userId l st url highlightFaces streamMode
    (oracle : ∀ c, Settled (reply c)) detail :
  let mode := default hls streamMode in
  let highlight := if decide (mode = hls) then Some true else highlightFaces in
  let urlToUse := or_string url (or_string (Some (rtmpUrl st)) defaultRtmpUrl) in
  let fetchCall := Fetch (faceRecognitionServerUrl +:+ "/api/config/" +:+
                          streamKey userId) "POST" (configBody mode urlToUse) in
  activeUserStates w !! userId = Some l →
  heap w !! l = Some st →
  mode ≠ simulation →
  truthy_bool highlight = true →
  match oracle fetchCall with
  | Rejected e => Some (message e)
  | Fulfilled resp =>
      if ok resp
      then match oracle (ResponseJson resp) with
           | Rejected e => Some (message e)
           | Fulfilled _ => None
           end
      else Some (configureFailed +:+ statusText resp)
  end = Some detail →
  ∀ w' r,
    complete (quiet oracle)
             (startStreamForUser userId url highlightFaces streamMode) w = (w', r) →
    r = Rejected (Error (configureFailed +:+ detail))
    ∧ output w' =
        (output w ++
         Issued fetchCall ::
         match oracle fetchCall with
         | Fulfilled resp => if ok resp then [Issued (ResponseJson resp)] else []
         | Rejected _ => []
         end)%list
    ∧ lookupState w' userId =
        Some (l, mkState (rtmpUrl st) (streamStatus st) (session st) highlight
                         (hlsUrl st) (Some mode))
    ∧ persistentUserSettings w' !! userId =
        Some (mkSettings
                (ps_rtmpUrl (existingOrDefault (persistentUserSettings w !! userId)))
                (Some mode) highlight).
Proof.
  intros mode highlight urlToUse fetchCall Hl Hs Hmode Hhl Hfail w' r.
  subst mode highlight urlToUse fetchCall.
  destruct streamMode as [[]|]; simpl in *; try congruence;
    unfold startStreamForUser; step;
    try (destruct highlightFaces as [[]|]; simpl in Hhl; try discriminate);
    step;
    (match type of Hfail with
     | context [match oracle ?c with _ => _ end] =>
         destruct (oracle c) as [resp|e] eqn:Hfetch
     end; step;
     [ destruct (ok resp) eqn:Hok; step;
       [ destruct (oracle (ResponseJson resp)) as [cfg|e] eqn:Hjson; step;
         [ discriminate | ]
       | ]
     | ];
     inversion Hfail; subst; clear Hfail;
     intros Hrun; inversion Hrun; subst; clear Hrun;
     rewrite ?lookupState_unfold; simpl;
     rewrite ?Hl, ?lookup_insert_eq, ?list_lookup_alter_eq, ?Hs; simpl;
     rewrite <- ?app_assoc; simpl;
     repeat split; reflexivity).
Qed.

Lemma startStream_configuration_fails_witness :
  snd (complete (quiet (λ c, match c with
                             | Fetch _ _ _ => Fulfilled (mkResponse false "Bad Gateway")
                             | ResponseJson _ => Fulfilled (mkConfigResult None)
                             | RequestStream _ _ => Fulfilled tt
                             | StopStream _ => Fulfilled tt
                             end))
                (startStreamForUser "u1" None None (Some hls))
                (connected 7%nat "u1" emptyWorld))
  = Rejected (Error "Failed to configure face recognition: Failed to configure face recognition: Bad Gateway").
Proof.
  destruct (startStream_configuration_fails (connected 7%nat "u1" emptyWorld) "u1" 0%nat
              (mkState defaultRtmpUrl (initialStreamStatus 0) 7%nat (Some true)
                       None (Some hls))
              None None (Some hls)
              (λ c, match c with
                    | Fetch _ _ _ => Fulfilled (mkResponse false "Bad Gateway")
                    | ResponseJson _ => Fulfilled (mkConfigResult None)
                    | RequestStream _ _ => Fulfilled tt
                    | StopStream _ => Fulfilled tt
                    end)
              ("Failed to configure face recognition: " +:+ "Bad Gateway")
              ltac:(vm_compute; reflexivity) eq_refl ltac:(discriminate)
              eq_refl eq_refl _ _ (surjective_pairing _))
    as (Hr & _).
  exact Hr.
Defined.

(** X8. A start in RTMP mode without highlighting talks to the transport
    only.  The target is the requested URL when it is a non-empty string,
    else the URL of the state object when that is non-empty, else the
    default; it is written into the state object but not into the
    persistent settings, so [getRtmpUrlForUser] does not answer it.  The
    call ends as the transport's promise does.  With the flag left out
    [isFaceHighlightingEnabledForUser] answers [true] afterwards. *)
Theorem startStream_direct w userId l st url highlightFaces
    (oracle : ∀ c, Settled (reply c)) :
  let target := or_string url (or_string (Some (rtmpUrl st)) defaultRtmpUrl) in
  let transportCall := RequestStream (session st) (streamRequest target) in
  activeUserStates w !! userId = Some l →
  heap w !! l = Some st →
  truthy_bool highlightFaces = false →
  ∀ w' r,
    complete (quiet oracle)
             (startStreamForUser userId url highlightFaces (Some rtmp)) w = (w', r) →
    r = oracle transportCall
    ∧ (∀ requested, url = Some requested → requested ≠ "" → target = requested)
    ∧ (url = None ∨ url = Some "" →
       target = if decide (rtmpUrl st = "") then defaultRtmpUrl else rtmpUrl st)
    ∧ output w' =
        (output w ++
         [ShowTextWall (session st) "Starting RTMP stream..."; Issued transportCall] ++
         match oracle transportCall with
         | Fulfilled _ => []
         | Rejected e =>
             [ShowTextWall (session st) ("Failed to start stream: " +:+ message e)]
         end)%list
    ∧ (rtmpUrl <$> activeState w' userId) = Some target
    ∧ getRtmpUrlForUser w' userId =
        Some (ps_rtmpUrl (existingOrDefault (persistentUserSettings w !! userId)))
    ∧ getStreamModeForUser w' userId = rtmp
    ∧ isFaceHighlightingEnabledForUser w' userId = default true highlightFaces
    ∧ getHlsUrlForUser w' userId = hlsUrl st
    ∧ getStreamStatusForUser w' userId =
        Some match oracle transportCall with
             | Fulfilled _ => streamStatus st
             | Rejected e =>
                 mkStatus RTMP_STREAM_STATUS "error" (Some (message e)) (clock w) None
             end.
Proof.
  intros target transportCall Hl Hs Hhl w' r. subst target transportCall.
  assert (Hres1 : ∀ requested, url = Some requested → requested ≠ "" →
            or_string url (or_string (Some (rtmpUrl st)) defaultRtmpUrl) = requested).
  { intros requested -> Hne. unfold or_string at 1.
    destruct (decide (requested = "")); [contradiction|reflexivity]. }
  assert (Hres2 : url = None ∨ url = Some "" →
            or_string url (or_string (Some (rtmpUrl st)) defaultRtmpUrl)
            = if decide (rtmpUrl st = "") then defaultRtmpUrl else rtmpUrl st).
  { intros [-> | ->]; reflexivity. }
  unfold startStreamForUser; step.
  destruct highlightFaces as [[]|]; simpl in Hhl; try discriminate; step;
    (match goal with
     | |- context [match oracle ?c with _ => _ end] =>
         destruct (oracle c) as [[]|e] eqn:Htransport
     end; step;
     intros Hrun; inversion Hrun; subst; clear Hrun;
     unfold getRtmpUrlForUser, getHlsUrlForUser, getStreamModeForUser,
       isFaceHighlightingEnabledForUser, getStreamStatusForUser, activeState;
     rewrite ?lookupState_unfold; simpl;
     rewrite ?Hl, ?lookup_insert_eq, ?list_lookup_alter_eq, ?Hs; simpl;
     rewrite <- ?app_assoc; simpl;
     repeat split; try reflexivity; try assumption).
Qed.

Lemma startStream_direct_witness :
  snd (complete (quiet (replies None (Rejected (Error "busy"))))
                (startStreamForUser "u1" (Some "rtmp://dest/x") (Some false) (Some rtmp))
                (connected 7%nat "u1" emptyWorld))
  = Rejected (Error "busy").
Proof.
  destruct (startStream_direct (connected 7%nat "u1" emptyWorld) "u1" 0%nat
              (mkState defaultRtmpUrl (initialStreamStatus 0) 7%nat (Some true)
                       None (Some hls))
              (Some "rtmp://dest/x") (Some false)
              (replies None (Rejected (Error "busy")))
              ltac:(vm_compute; reflexivity) eq_refl eq_refl
              _ _ (surjective_pairing _))
    as (Hr & _).
  exact Hr.
Defined.

Lemma highlighted_start_leaves_ingest w userId l st url highlightFaces streamMode
    (oracle : ∀ c, Settled (reply c)) (resp : Response) (cfg : ConfigResult) :
  let mode := default hls streamMode in
  let highlight := if decide (mode = hls) then Some true else highlightFaces in
  let urlToUse := or_string url (or_string (Some (rtmpUrl st)) defaultRtmpUrl) in
  let fetchCall := Fetch (faceRecognitionServerUrl +:+ "/api/config/" +:+
                          streamKey userId) "POST" (configBody mode urlToUse) in
  activeUserStates w !! userId = Some l →
  heap w !! l = Some st →
  mode ≠ simulation →
  truthy_bool highlight = true →
  oracle fetchCall = Fulfilled resp →
  ok resp = true →
  oracle (ResponseJson resp) = Fulfilled cfg →
  ∃ st1,
    lookupState
      (fst (complete (quiet oracle)
              (startStreamForUser userId url highlightFaces streamMode) w)) userId
    = Some (l, st1)
    ∧ rtmpUrl st1 = "rtmp://stream.okgodoit.com/live/" +:+ streamKey userId
    ∧ session st1 = session st.
Proof.
  intros mode highlight urlToUse fetchCall Hl Hs Hmode Hhl Hfetch Hok Hjson.
  subst mode highlight urlToUse fetchCall.
  destruct streamMode as [[]|]; simpl in *; try congruence;
    unfold startStreamForUser; step;
    try (destruct highlightFaces as [[]|]; simpl in Hhl; try discriminate);
    step; rewrite Hfetch; step; rewrite Hok; step; rewrite Hjson; step;
    (destruct (truthy_string (output_url cfg)) eqn:Hout; step;
     match goal with
     | |- context [match oracle ?c with _ => _ end] =>
         destruct (oracle c) as [[]|e] eqn:Htransport
     end; step;
     rewrite ?lookupState_unfold; simpl;
     rewrite ?Hl, ?list_lookup_alter_eq, ?Hs; simpl;
     (eexists; split; [reflexivity|]; split; reflexivity)).
Qed.

(** X9. The ingest URL sticks.  After a start with highlighting whose
    configuration was accepted, a start in RTMP mode that names no URL takes
    its target from the state object, which now holds the ingest URL of the
    face recognition server: without highlighting the glasses are asked to
    stream there directly, and with highlighting the server is configured to
    forward to its own ingest URL. *)
Theorem second_start_targets_ingest w userId l st url highlightFaces streamMode
    (oracle : ∀ c, Settled (reply c)) (resp : Response) (cfg : ConfigResult) :
  let mode := default hls streamMode in
  let highlight := if decide (mode = hls) then Some true else highlightFaces in
  let urlToUse := or_string url (or_string (Some (rtmpUrl st)) defaultRtmpUrl) in
  let fetchCall := Fetch (faceRecognitionServerUrl +:+ "/api/config/" +:+
                          streamKey userId) "POST" (configBody mode urlToUse) in
  let ingest := "rtmp://stream.okgodoit.com/live/" +:+ streamKey userId in
  let w1 := fst (complete (quiet oracle)
                   (startStreamForUser userId url highlightFaces streamMode) w) in
  activeUserStates w !! userId = Some l →
  heap w !! l = Some st →
  mode ≠ simulation →
  truthy_bool highlight = true →
  oracle fetchCall = Fulfilled resp →
  ok resp = true →
  oracle (ResponseJson resp) = Fulfilled cfg →
  (∀ again, truthy_bool again = false →
     ∃ w2 k,
       run (startStreamForUser userId None again (Some rtmp)) w1
       = (w2, Waiting (RequestStream (session st) (streamRequest ingest)) k))
  ∧ (∃ w2 k,
       run (startStreamForUser userId None (Some true) (Some rtmp)) w1
       = (w2, Waiting (Fetch (faceRecognitionServerUrl +:+ "/api/config/" +:+
                              streamKey userId) "POST"
                             (mkConfigBody 5 30 None (Some ingest))) k)).
Proof.
  intros mode highlight urlToUse fetchCall ingest w1
         Hl Hs Hmode Hhl Hfetch Hok Hjson.
  destruct (highlighted_start_leaves_ingest w userId l st url highlightFaces
              streamMode oracle resp cfg Hl Hs Hmode Hhl Hfetch Hok Hjson)
    as (st1 & Hst1 & Hurl1 & Hsession1).
  fold w1 in Hst1. clearbody w1.
  apply lookupState_Some in Hst1 as [Hl1 Hs1].
  split.
  - intros again Hagain. unfold startStreamForUser. step.
    destruct again as [[]|]; simpl in Hagain; try discriminate; step;
      rewrite Hurl1, Hsession1; simpl; do 2 eexists; reflexivity.
  - unfold startStreamForUser. step. rewrite Hurl1. simpl.
    do 2 eexists. reflexivity.
Qed.

Lemma second_start_targets_ingest_witness :
  ∃ w2 k,
    run (startStreamForUser "u1" None (Some false) (Some rtmp)) afterHlsStart
    = (w2, Waiting (RequestStream 7%nat
                      (streamRequest "rtmp://stream.okgodoit.com/live/user_u1")) k).
Proof.
  refine (proj1 (second_start_targets_ingest (connected 7%nat "u1" emptyWorld) "u1" 0%nat
                   (mkState defaultRtmpUrl (initialStreamStatus 0) 7%nat (Some true)
                            None (Some hls))
                   None None (Some hls)
                   (replies (Some playbackUrl) (Fulfilled tt))
                   (mkResponse true "OK") (mkConfigResult (Some playbackUrl))
                   _ eq_refl _ eq_refl eq_refl eq_refl eq_refl) (Some false) eq_refl).
  - vm_compute. reflexivity.
  - discriminate.
Defined.

(** X10. After any start for a connected user, whatever the mode, the
    flag and the replies, [getStreamModeForUser] answers the mode that was
    started, [hls] when none was named.  So after a start in simulation mode
    the stop route of the demo version answers by itself. *)
Theorem start_sets_mode w userId l st url highlightFaces streamMode
    (oracle : ∀ c, Settled (reply c)) :
  activeUserStates w !! userId = Some l →
  heap w !! l = Some st →
  ∀ w' r,
    complete (quiet oracle)
             (startStreamForUser userId url highlightFaces streamMode) w = (w', r) →
    getStreamModeForUser w' userId = default hls streamMode
    ∧ (streamMode = Some simulation → userId ≠ "" →
       run (WebviewDemo.api_stop_stream (Some userId)) w'
       = (w', Done (mkHttp 200 true
                      "Demo mode stopped - disconnected from sample content."
                      (Some "demo")))).
Proof.
  intros Hl Hs w' r Hrun.
  assert (Hmode : getStreamModeForUser w' userId = default hls streamMode).
  { revert Hrun.
    destruct streamMode as [[]|]; unfold startStreamForUser; step;
      try (destruct highlightFaces as [[]|]; step);
      repeat (step; match goal with
        | |- context [match oracle ?c with _ => _ end] => destruct (oracle c) eqn:?
        | |- context [negb (ok ?r)] => destruct (ok r) eqn:?
        | |- context [truthy_string ?x] => destruct (truthy_string x) eqn:?
        end); step;
      (intros Hrun; inversion Hrun; subst; clear Hrun;
       unfold getStreamModeForUser; simpl;
       rewrite lookup_insert_eq; reflexivity). }
  split; [exact Hmode|].
  intros -> Hne.
  assert (Hor : or_string (Some userId) WebviewDemo.fallbackUser = userId).
  { unfold or_string. destruct (decide (userId = "")); [contradiction|reflexivity]. }
  unfold WebviewDemo.api_stop_stream. rewrite Hor.
  destruct (decide (userId = "")); [contradiction|].
  rewrite run_Get_Pure_bind, Hmode. reflexivity.
Qed.

Lemma start_sets_mode_witness :
  getStreamModeForUser
    (fst (complete (quiet (replies None (Rejected (Error "busy"))))
                   (startStreamForUser "u1" None (Some true) (Some rtmp))
                   (connected 7%nat "u1" emptyWorld))) "u1"
  = rtmp.
Proof.
  refine (proj1 (start_sets_mode (connected 7%nat "u1" emptyWorld) "u1" 0%nat
                   (mkState defaultRtmpUrl (initialStreamStatus 0) 7%nat (Some true)
                            None (Some hls))
                   None (Some true) (Some rtmp)
                   (replies None (Rejected (Error "busy")))
                   _ eq_refl _ _ (surjective_pairing _))).
  vm_compute. reflexivity.
Defined.

(** ** Stopping a stream *)

(** X11. [stopStreamForUser] for a connected user shows its notification,
    asks the transport to stop and ends as that promise does.  When the
    transport accepts nothing is written: the status stays what it was
    until a status event arrives.  When it refuses the failure is shown and
    the status becomes an error with the transport's message and the
    current time.  The persistent settings are not touched either way. *)
Theorem stopStream_outcomes w userId l st (oracle : ∀ c, Settled (reply c)) :
  activeUserStates w !! userId = Some l →
  heap w !! l = Some st →
  ∀ w' r,
    complete (quiet oracle) (stopStreamForUser userId) w = (w', r) →
    r = oracle (StopStream (session st))
    ∧ persistentUserSettings w' = persistentUserSettings w
    ∧ activeUserStates w' = activeUserStates w
    ∧ heap w' =
        match oracle (StopStream (session st)) with
        | Fulfilled _ => heap w
        | Rejected e =>
            alter (with_streamStatus
                     (mkStatus RTMP_STREAM_STATUS "error" (Some (message e))
                               (clock w) None)) l (heap w)
        end
    ∧ getStreamStatusForUser w' userId =
        Some match oracle (StopStream (session st)) with
             | Fulfilled _ => streamStatus st
             | Rejected e =>
                 mkStatus RTMP_STREAM_STATUS "error" (Some (message e)) (clock w) None
             end
    ∧ output w' =
        (output w ++
         [ShowTextWall (session st) "Stopping RTMP stream via web...";
          Issued (StopStream (session st))] ++
         match oracle (StopStream (session st)) with
         | Fulfilled _ => []
         | Rejected e =>
             [ShowTextWall (session st) ("Failed to stop stream: " +:+ message e)]
         end)%list.
Proof.
  intros Hl Hs w' r. unfold stopStreamForUser. step.
  destruct (oracle (StopStream (session st))) as [[]|e] eqn:Htransport; step;
    (intros Hrun; inversion Hrun; subst; clear Hrun;
     unfold getStreamStatusForUser, activeState;
     rewrite ?lookupState_unfold; simpl;
     rewrite ?Hl, ?list_lookup_alter_eq, ?Hs; simpl;
     rewrite <- ?app_assoc; simpl;
     repeat split; reflexivity).
Qed.

Lemma stopStream_outcomes_witness :
  (status <$> getStreamStatusForUser
     (fst (complete (quiet (replies None (Rejected (Error "busy"))))
                    (stopStreamForUser "u1") afterHlsStart)) "u1")
  = Some "error".
Proof.
  destruct (stopStream_outcomes afterHlsStart "u1" 0%nat
              (mkState "rtmp://stream.okgodoit.com/live/user_u1"
                       (initialStreamStatus 0) 7%nat (Some true)
                       (Some playbackUrl) (Some hls))
              (replies None (Rejected (Error "busy")))
              ltac:(vm_compute; reflexivity) ltac:(vm_compute; reflexivity)
              _ _ (surjective_pairing _))
    as (_ & _ & _ & _ & Hstatus & _).
  rewrite Hstatus. reflexivity.
Defined.

(** ** Status events, connect, settings *)

(** X12. A status event whose status is not ['stopped'], for a connected
    user: the payload is stored as it is, with its timestamp replaced by the
    current time, and [getStreamStatusForUser] answers it; no other field of
    the state object and no setting changes.  The glasses are told for
    ['initializing'], ['active'] and ['error'] and for no other status. *)
Theorem onStatus_stores w s userId l st event :
  activeUserStates w !! userId = Some l →
  heap w !! l = Some st →
  status event ≠ "stopped" →
  ∃ w',
    run (onStatus s userId event) w = (w', Done tt)
    ∧ heap w' = alter (with_streamStatus (stamp (clock w) event)) l (heap w)
    ∧ getStreamStatusForUser w' userId = Some (stamp (clock w) event)
    ∧ activeUserStates w' = activeUserStates w
    ∧ persistentUserSettings w' = persistentUserSettings w
    ∧ output w' =
        (output w ++
         if decide (status event = "initializing")
         then [ShowTextWall s "Stream is initializing..."]
         else if decide (status event = "active")
         then [ShowTextWall s "Stream is active and running!"]
         else if decide (status event = "error")
         then [ShowTextWall s ("Stream error: " +:+ interpolate (errorDetails event))]
         else [])%list.
Proof.
  intros Hl Hs Hstatus. unfold onStatus. step.
  destruct (decide (status event = "initializing"));
    [|destruct (decide (status event = "active"));
      [|destruct (decide (status event = "error"));
        [|destruct (decide (status event = "stopped")); [contradiction|]]]];
    step;
    (eexists; split; [reflexivity|];
     unfold getStreamStatusForUser, activeState;
     rewrite ?lookupState_unfold; simpl;
     rewrite ?Hl, ?list_lookup_alter_eq, ?Hs, ?app_nil_r; simpl;
     repeat split; reflexivity).
Qed.

Lemma onStatus_stores_witness :
  ∃ w',
    run (onStatus 7%nat "u1" (mkStatus (OTHER_MESSAGE_TYPE "x") "connecting" None 5 None))
        (connected 7%nat "u1" emptyWorld) = (w', Done tt)
    ∧ getStreamStatusForUser w' "u1"
      = Some (mkStatus (OTHER_MESSAGE_TYPE "x") "connecting" None 0 None)
    ∧ output w' = output (connected 7%nat "u1" emptyWorld).
Proof.
  destruct (onStatus_stores (connected 7%nat "u1" emptyWorld) 7%nat "u1" 0%nat
              (mkState defaultRtmpUrl (initialStreamStatus 0) 7%nat (Some true)
                       None (Some hls))
              (mkStatus (OTHER_MESSAGE_TYPE "x") "connecting" None 5 None)
              ltac:(vm_compute; reflexivity) eq_refl ltac:(discriminate))
    as (w' & Hrun & _ & Hget & _ & _ & Hout).
  exists w'. split; [exact Hrun|]. split; [exact Hget|].
  rewrite Hout. vm_compute. reflexivity.
Defined.

(** X13. [updatePersistentSettingsForUser] sends nothing out and never
    fails.  A field given with a value is answered by its getter from then
    on; a field left out keeps its getter's answer, except that
    [getRtmpUrlForUser] answers the URL of the persistent settings, their
    default when the entry is new, whatever the state object holds.  The
    playback URL and the status are not touched. *)
Theorem updatePersistentSettings_roundtrip w userId settings :
  ∃ w',
    run (updatePersistentSettingsForUser userId settings) w = (w', Done tt)
    ∧ output w' = output w
    ∧ activeUserStates w' = activeUserStates w
    ∧ persistentUserSettings w' !! userId =
        Some (mergeSettings (existingOrDefault (persistentUserSettings w !! userId))
                            settings)
    ∧ getRtmpUrlForUser w' userId =
        Some (default (ps_rtmpUrl (existingOrDefault (persistentUserSettings w !! userId)))
                      (pt_rtmpUrl settings))
    ∧ (∀ m, pt_streamMode settings = Given (Some m) →
            getStreamModeForUser w' userId = m)
    ∧ (∀ b, pt_faceHighlightingEnabled settings = Given (Some b) →
            isFaceHighlightingEnabledForUser w' userId = b)
    ∧ (pt_streamMode settings = Omitted →
       getStreamModeForUser w' userId = getStreamModeForUser w userId)
    ∧ (pt_faceHighlightingEnabled settings = Omitted →
       isFaceHighlightingEnabledForUser w' userId
       = isFaceHighlightingEnabledForUser w userId)
    ∧ getHlsUrlForUser w' userId = getHlsUrlForUser w userId
    ∧ getStreamStatusForUser w' userId = getStreamStatusForUser w userId.
Proof.
  unfold updatePersistentSettingsForUser.
  destruct settings as [u m f]. simpl.
  rewrite lookupState_set_persistentUserSettings.
  unfold getRtmpUrlForUser, getStreamModeForUser, isFaceHighlightingEnabledForUser,
    getHlsUrlForUser, getStreamStatusForUser, activeState.
  destruct (lookupState w userId) as [[l st]|] eqn:Hst.
  - apply lookupState_Some in Hst as [Hl Hs].
    destruct m as [|[m|]], f as [|[b|]], u as [u|]; simpl;
      (eexists; split; [reflexivity|]; simpl;
       rewrite ?lookupState_unfold; simpl;
       rewrite ?Hl, ?lookup_insert_eq, ?list_lookup_alter_eq, ?Hs; simpl;
       destruct (persistentUserSettings w !! userId) as [[pu pm pf]|]; simpl;
       repeat split; try reflexivity; intros; try congruence;
       try (destruct pm; reflexivity); try (destruct pf; reflexivity)).
  - destruct m as [|[m|]], f as [|[b|]], u as [u|]; simpl;
      (eexists; split; [reflexivity|]; simpl;
       rewrite ?lookupState_set_persistentUserSettings, ?Hst; simpl;
       rewrite ?lookup_insert_eq; simpl;
       destruct (persistentUserSettings w !! userId) as [[pu pm pf]|]; simpl;
       repeat split; try reflexivity; intros; try congruence;
       try (destruct pm; reflexivity); try (destruct pf; reflexivity)).
Qed.

(** X14. A connect builds a new state object and puts it into the map in
    place of whatever entry the user had.  Its URL, mode and flag are the
    ones of the persistent settings where they are set (an empty URL counts
    as not set) and else the default URL, [hls] and [true]; its status is
    ['stopped'] at the current time and it has no playback URL.  The state
    objects that existed, the entries of other users and the persistent
    settings are left as they are. *)
Theorem onSession_initialises w s userId :
  let settings := persistentUserSettings w !! userId in
  let fresh :=
    mkState (or_string (ps_rtmpUrl <$> settings) defaultRtmpUrl)
            (mkStatus RTMP_STREAM_STATUS "stopped" None (clock w) None) s
            (Some (default true (settings ≫= ps_faceHighlightingEnabled)))
            None
            (Some (default hls (settings ≫= ps_streamMode))) in
  ∃ w',
    run (onSession s userId) w = (w', Done tt)
    ∧ lookupState w' userId = Some (length (heap w), fresh)
    ∧ heap w' = (heap w ++ [fresh])%list
    ∧ (∀ other, other ≠ userId →
                activeUserStates w' !! other = activeUserStates w !! other)
    ∧ persistentUserSettings w' = persistentUserSettings w
    ∧ getHlsUrlForUser w' userId = None
    ∧ (status <$> getStreamStatusForUser w' userId) = Some "stopped"
    ∧ output w' =
        (output w ++
         [ShowTextWall s "Photo & Streaming App Ready! Face highlighting available."])%list.
Proof.
  intros settings fresh. subst settings fresh.
  unfold onSession. simpl.
  eexists. split; [reflexivity|].
  assert (Hlook : ∀ x : UserStreamState,
            (heap w ++ [x])%list !! length (heap w) = Some x).
  { intros x. rewrite lookup_app_r by lia. rewrite Nat.sub_diag. reflexivity. }
  unfold getHlsUrlForUser, getStreamStatusForUser, activeState.
  rewrite !lookupState_unfold. simpl.
  rewrite lookup_insert_eq, Hlook. simpl.
  repeat split; try reflexivity.
  intros other Hother. apply lookup_insert_ne. congruence.
Qed.

Lemma connected_state w s userId :
  activeState (connected s userId w) userId =
  Some (mkState (or_string (ps_rtmpUrl <$> persistentUserSettings w !! userId)
                           defaultRtmpUrl)
                (initialStreamStatus (clock w)) s
                (Some (default true (persistentUserSettings w !! userId
                                     ≫= ps_faceHighlightingEnabled)))
                None
                (Some (default hls (persistentUserSettings w !! userId
                                    ≫= ps_streamMode)))).
Proof.
  unfold connected, onSession, activeState. simpl.
  rewrite lookupState_unfold. simpl. rewrite lookup_insert_eq.
  rewrite lookup_app_r by lia. rewrite Nat.sub_diag. reflexivity.
Qed.

(** X15. Settings outlive the session.  After a URL, a mode and a flag
    have been saved, the getters answer them, and keep answering them after
    a disconnect and after the connect that follows it.  The state object of
    the new session holds the saved mode and flag, and the saved URL unless
    that is the empty string: then it holds the default URL, while
    [getRtmpUrlForUser] still answers the empty string. *)
Theorem settings_survive_reconnect w s userId url mode flag :
  let saved := fst (run (updatePersistentSettingsForUser userId
                           (mkPartial (Some url) (Given (Some mode))
                                      (Given (Some flag)))) w) in
  let offline := fst (run (onDisconnected userId) saved) in
  let online := connected s userId offline in
  (∀ w', w' = saved ∨ w' = offline ∨ w' = online →
         getRtmpUrlForUser w' userId = Some url
         ∧ getStreamModeForUser w' userId = mode
         ∧ isFaceHighlightingEnabledForUser w' userId = flag)
  ∧ lookupState offline userId = None
  ∧ activeState online userId =
      Some (mkState (if decide (url = "") then defaultRtmpUrl else url)
                    (mkStatus RTMP_STREAM_STATUS "stopped" None (clock w) None) s
                    (Some flag) None (Some mode)).
Proof.
  intros saved offline online.
  assert (Hsettings : ∀ w', w' = saved ∨ w' = offline ∨ w' = online →
            persistentUserSettings w' !! userId = Some (mkSettings url (Some mode) (Some flag))).
  { intros w' Hw'.
    assert (Hsaved : persistentUserSettings saved !! userId
                     = Some (mkSettings url (Some mode) (Some flag))).
    { subst saved. unfold updatePersistentSettingsForUser. simpl.
      rewrite lookupState_set_persistentUserSettings.
      destruct (lookupState w userId) as [[l st]|]; simpl;
        rewrite lookup_insert_eq; reflexivity. }
    destruct Hw' as [-> | [-> | ->]]; exact Hsaved. }
  split; [|split].
  - intros w' Hw'. specialize (Hsettings w' Hw').
    unfold getRtmpUrlForUser, getStreamModeForUser, isFaceHighlightingEnabledForUser.
    rewrite Hsettings. simpl. auto.
  - subst offline. rewrite lookupState_unfold. simpl.
    rewrite lookup_delete_eq. reflexivity.
  - specialize (Hsettings offline (or_intror (or_introl eq_refl))).
    assert (Hclock : clock offline = clock w).
    { subst offline saved. unfold updatePersistentSettingsForUser. simpl.
      rewrite lookupState_set_persistentUserSettings.
      destruct (lookupState w userId) as [[l st]|]; reflexivity. }
    subst online. rewrite connected_state, Hsettings, Hclock. reflexivity.
Qed.

Lemma settings_survive_reconnect_witness :
  activeState
    (connected 8%nat "u1"
       (fst (run (onDisconnected "u1")
               (fst (run (updatePersistentSettingsForUser "u1"
                            (mkPartial (Some "") (Given (Some rtmp))
                                       (Given (Some false))))
                         (connected 7%nat "u1" (worldAt 42)))))))
    "u1"
  = Some (mkState defaultRtmpUrl
                  (mkStatus RTMP_STREAM_STATUS "stopped" None 42 None) 8%nat
                  (Some false) None (Some rtmp))
  ∧ getRtmpUrlForUser
      (connected 8%nat "u1"
         (fst (run (onDisconnected "u1")
                 (fst (run (updatePersistentSettingsForUser "u1"
                              (mkPartial (Some "") (Given (Some rtmp))
                                         (Given (Some false))))
                           (connected 7%nat "u1" (worldAt 42)))))))
      "u1"
    = Some "".
Proof.
  destruct (settings_survive_reconnect (connected 7%nat "u1" (worldAt 42))
              8%nat "u1" "" rtmp false) as (Hgetters & _ & Hstate).
  split; [exact Hstate|].
  exact (proj1 (Hgetters _ (or_intror (or_intror eq_refl)))).
Defined.

(** ** What an operation leaves alone *)

Lemma preserves_complete {A} (R : World → World → Prop) env (m : Async A) w :
  (∀ w0, R w0 w0) →
  (∀ w1 w2 w3, R w1 w2 → R w2 w3 → R w1 w3) →
  (∀ c w0, R w0 (fst (env c w0))) →
  (∀ e w0, R w0 (emit e w0)) →
  preserves R m w → R w (fst (complete env m w)).
Proof.
  intros Hrefl Htrans Henv Hemit. revert w.
  induction m as [a|e|k IH|f k IH|c k IH]; intros w; simpl; auto.
  - intros [Hf Hk]. eapply Htrans; [exact Hf|]. apply IH, Hk.
  - intros Hk. specialize (Henv c (emit (Issued c) w)).
    destruct (env c (emit (Issued c) w)) as [w' r]. simpl in Henv.
    eapply Htrans; [|apply IH, Hk].
    eapply Htrans; [apply Hemit|exact Henv].
Qed.

Lemma only_for_refl userId l w : only_for userId l w w.
Proof. repeat split. Qed.

Lemma only_for_trans userId l w1 w2 w3 :
  only_for userId l w1 w2 → only_for userId l w2 w3 → only_for userId l w1 w3.
Proof.
  intros (Hc1 & Hm1 & Hh1) (Hc2 & Hm2 & Hh2). split; [congruence|]. split.
  - intros other Hother. destruct (Hm1 other Hother), (Hm2 other Hother).
    split; congruence.
  - intros l' Hl'. rewrite Hh2, Hh1; auto.
Qed.

Lemma only_for_same_answers userId l other w w' :
  only_for userId l w w' → other ≠ userId →
  activeUserStates w !! other ≠ Some l →
  same_answers other w w'.
Proof.
  intros (Hclock & Hmaps & Hheap) Hother Hloc.
  destruct (Hmaps other Hother) as [Hactive Hsettings].
  assert (Hstate : lookupState w' other = lookupState w other).
  { rewrite !lookupState_unfold, Hactive.
    destruct (activeUserStates w !! other) as [l'|]; [|reflexivity].
    rewrite Hheap; [reflexivity|]. congruence. }
  unfold same_answers, getRtmpUrlForUser, getStreamStatusForUser,
    isFaceHighlightingEnabledForUser, getHlsUrlForUser, getStreamModeForUser,
    activeState.
  rewrite Hstate, Hsettings, Hclock. repeat split.
Qed.

Ltac only_mine :=
  repeat split; simpl; auto;
  try (intros; rewrite ?lookup_insert_ne, ?lookup_delete_ne by congruence; auto; fail);
  try (intros; rewrite list_lookup_alter_ne by congruence; reflexivity).

Ltac isolate :=
  repeat (simpl;
          match goal with
          | |- True => exact I
          | |- only_for _ _ _ _ => only_mine
          | |- _ ∧ _ => split
          | |- ∀ _, _ => intro
          | H : ∀ l0, _ = Some l0 → _ |- context [lookupState ?w ?u] =>
              let l0 := fresh "l" in
              let st0 := fresh "st" in
              let E := fresh "E" in
              destruct (lookupState w u) as [[l0 st0]|] eqn:E;
              [apply lookupState_Some in E as [E _]; apply H in E; subst l0|]
          | |- context [match ?x with Fulfilled _ => _ | Rejected _ => _ end] =>
              destruct x
          | |- context [match ?x with Some _ => _ | None => _ end] =>
              destruct x
          | |- context [match ?x with Omitted => _ | Given _ => _ end] =>
              destruct x
          | |- context [truthy_string ?x && _] => destruct (truthy_string x)
          | |- context [if ?b then _ else _] => destruct b
          end).

Lemma only_for_startStreamForUser userId l url highlightFaces streamMode w :
  (∀ l0, activeUserStates w !! userId = Some l0 → l0 = l) →
  preserves (only_for userId l)
            (startStreamForUser userId url highlightFaces streamMode) w.
Proof. intros H. unfold startStreamForUser. isolate. Qed.

Lemma only_for_stopStreamForUser userId l w :
  (∀ l0, activeUserStates w !! userId = Some l0 → l0 = l) →
  preserves (only_for userId l) (stopStreamForUser userId) w.
Proof. intros H. unfold stopStreamForUser. isolate. Qed.

Lemma only_for_updatePersistentSettingsForUser userId l settings w :
  (∀ l0, activeUserStates w !! userId = Some l0 → l0 = l) →
  preserves (only_for userId l) (updatePersistentSettingsForUser userId settings) w.
Proof. intros H. unfold updatePersistentSettingsForUser. isolate. Qed.

Lemma only_for_setRtmpUrlForUser userId l newUrl w :
  (∀ l0, activeUserStates w !! userId = Some l0 → l0 = l) →
  preserves (only_for userId l) (setRtmpUrlForUser userId newUrl) w.
Proof. intros H. unfold setRtmpUrlForUser. isolate. Qed.

Lemma only_for_onStatus s userId l event w :
  (∀ l0, activeUserStates w !! userId = Some l0 → l0 = l) →
  preserves (only_for userId l) (onStatus s userId event) w.
Proof. intros H. unfold onStatus. isolate. Qed.

Lemma only_for_onDisconnected userId l w :
  preserves (only_for userId l) (onDisconnected userId) w.
Proof. unfold onDisconnected. isolate. Qed.

Lemma only_for_onSession s userId w :
  preserves (only_for userId (length (heap w))) (onSession s userId) w.
Proof.
  unfold onSession. simpl. split; [|split; [|exact I]].
  - split; [reflexivity|]. split.
    + intros other Hother. simpl. rewrite lookup_insert_ne by congruence. auto.
    + intros l' Hl'. simpl.
      destruct (decide (l' < length (heap w))%nat) as [Hlt|Hge].
      * apply lookup_app_l. exact Hlt.
      * rewrite !(proj2 (lookup_ge_None _ _)); [reflexivity|lia|].
        rewrite length_app. simpl. lia.
  - only_mine.
Qed.

(** X16. One user's operations do not reach another user.  Starting and
    stopping a stream, saving settings or a URL, a status event and a
    disconnect for [userId] — with whatever replies, and whatever else runs
    meanwhile for that user — leave the answers of all five getters as they
    were for every other user whose state object is not the one of
    [userId]; so does a connect of [userId], which builds a new state
    object. *)
Theorem users_are_isolated env w userId l other :
  (∀ c w0, only_for userId l w0 (fst (env c w0))) →
  (∀ l0, activeUserStates w !! userId = Some l0 → l0 = l) →
  other ≠ userId →
  activeUserStates w !! other ≠ Some l →
  (∀ url highlightFaces streamMode,
     same_answers other w
       (fst (complete env
               (startStreamForUser userId url highlightFaces streamMode) w)))
  ∧ same_answers other w (fst (complete env (stopStreamForUser userId) w))
  ∧ (∀ settings,
       same_answers other w
         (fst (complete env (updatePersistentSettingsForUser userId settings) w)))
  ∧ (∀ newUrl,
       same_answers other w (fst (complete env (setRtmpUrlForUser userId newUrl) w)))
  ∧ (∀ s event,
       same_answers other w (fst (complete env (onStatus s userId event) w)))
  ∧ same_answers other w (fst (complete env (onDisconnected userId) w))
  ∧ (∀ s, activeUserStates w !! other ≠ Some (length (heap w)) →
          same_answers other w (connected s userId w)).
Proof.
  intros Henv Hl Hother Hloc.
  assert (Hemit : ∀ e w0, only_for userId l w0 (emit e w0)) by (intros; only_mine).
  assert (Hgo : ∀ A (m : Async A),
            preserves (only_for userId l) m w →
            same_answers other w (fst (complete env m w))).
  { intros A m Hm. apply (only_for_same_answers userId l); auto.
    apply preserves_complete;
      [apply only_for_refl | apply only_for_trans | exact Henv | exact Hemit
      | exact Hm]. }
  split; [intros; apply Hgo, only_for_startStreamForUser, Hl|].
  split; [apply Hgo, only_for_stopStreamForUser, Hl|].
  split; [intros; apply Hgo, only_for_updatePersistentSettingsForUser, Hl|].
  split; [intros; apply Hgo, only_for_setRtmpUrlForUser, Hl|].
  split; [intros; apply Hgo, only_for_onStatus, Hl|].
  split; [apply Hgo, only_for_onDisconnected|].
  intros s Hfresh. unfold connected.
  apply (only_for_same_answers userId (length (heap w))); auto.
  change (fst (run (onSession s userId) w))
    with (fst (complete (quiet (replies None (Fulfilled tt))) (onSession s userId) w)).
  apply (preserves_complete (only_for userId (length (heap w)))).
  - apply only_for_refl.
  - apply only_for_trans.
  - intros c w0. apply only_for_refl.
  - intros e w0. only_mine.
  - apply only_for_onSession.
Qed.

Lemma users_are_isolated_witness :
  same_answers "u2" (connected 8%nat "u2" (connected 7%nat "u1" emptyWorld))
    (fst (complete (quiet (replies (Some playbackUrl) (Fulfilled tt)))
                   (startStreamForUser "u1" None None (Some hls))
                   (connected 8%nat "u2" (connected 7%nat "u1" emptyWorld)))).
Proof.
  refine (proj1 (users_are_isolated (quiet (replies (Some playbackUrl) (Fulfilled tt)))
                   (connected 8%nat "u2" (connected 7%nat "u1" emptyWorld))
                   "u1" 0%nat "u2" _ _ _ _) None None (Some hls)).
  - intros c w0. apply only_for_refl.
  - intros l0 Hl0. vm_compute in Hl0. congruence.
  - discriminate.
  - vm_compute. discriminate.
Defined.

Lemma settings_kept_refl w : settings_kept w w.
Proof. intros u H. exact H. Qed.

Lemma settings_kept_trans w1 w2 w3 :
  settings_kept w1 w2 → settings_kept w2 w3 → settings_kept w1 w3.
Proof. intros H1 H2 u H. apply H2, H1, H. Qed.

Ltac settings :=
  repeat (simpl;
          match goal with
          | |- True => exact I
          | |- settings_kept _ _ =>
              let u := fresh "u" in
              let H := fresh "H" in
              intros u H; simpl in *;
              first [ assumption
                    | rewrite ?lookup_insert; repeat case_decide; eauto; fail ]
          | |- _ ∧ _ => split
          | |- ∀ _, _ => intro
          | |- context [lookupState ?w ?u] =>
              destruct (lookupState w u) as [[? ?]|]
          | |- context [match ?x with Fulfilled _ => _ | Rejected _ => _ end] =>
              destruct x
          | |- context [match ?x with Some _ => _ | None => _ end] =>
              destruct x
          | |- context [match ?x with Omitted => _ | Given _ => _ end] =>
              destruct x
          | |- context [truthy_string ?x && _] => destruct (truthy_string x)
          | |- context [if ?b then _ else _] => destruct b
          end).

Lemma settings_kept_startStreamForUser userId url highlightFaces streamMode w :
  preserves settings_kept (startStreamForUser userId url highlightFaces streamMode) w.
Proof. unfold startStreamForUser. settings. Qed.

Lemma settings_kept_stopStreamForUser userId w :
  preserves settings_kept (stopStreamForUser userId) w.
Proof. unfold stopStreamForUser. settings. Qed.

Lemma settings_kept_updatePersistentSettingsForUser userId s w :
  preserves settings_kept (updatePersistentSettingsForUser userId s) w.
Proof. unfold updatePersistentSettingsForUser. settings. Qed.

Lemma settings_kept_setRtmpUrlForUser userId newUrl w :
  preserves settings_kept (setRtmpUrlForUser userId newUrl) w.
Proof. unfold setRtmpUrlForUser. settings. Qed.

Lemma settings_kept_onStatus s userId event w :
  preserves settings_kept (onStatus s userId event) w.
Proof. unfold onStatus. settings. Qed.

Lemma settings_kept_onSession s userId w :
  preserves settings_kept (onSession s userId) w.
Proof. unfold onSession. settings. Qed.

Lemma settings_kept_onDisconnected userId w :
  preserves settings_kept (onDisconnected userId) w.
Proof. unfold onDisconnected. settings. Qed.

(** X17. No operation removes an entry of the persistent settings: after a
    connect, a disconnect, a start, a stop, saved settings or a saved URL,
    or a status event, for any user and with whatever replies, a user who
    had persistent settings still has them. *)
Theorem settings_are_never_removed env w userId :
  (∀ c w0, settings_kept w0 (fst (env c w0))) →
  is_Some (persistentUserSettings w !! userId) →
  ∀ who s url highlightFaces streamMode settings newUrl event w',
    w' = fst (complete env (onSession s who) w)
    ∨ w' = fst (complete env (onDisconnected who) w)
    ∨ w' = fst (complete env (startStreamForUser who url highlightFaces streamMode) w)
    ∨ w' = fst (complete env (stopStreamForUser who) w)
    ∨ w' = fst (complete env (updatePersistentSettingsForUser who settings) w)
    ∨ w' = fst (complete env (setRtmpUrlForUser who newUrl) w)
    ∨ w' = fst (complete env (onStatus s who event) w) →
    is_Some (persistentUserSettings w' !! userId).
Proof.
  intros Henv Hsome who s url highlightFaces streamMode settings newUrl event w' Hw'.
  assert (Hgo : ∀ A (m : Async A),
            preserves settings_kept m w →
            is_Some (persistentUserSettings (fst (complete env m w)) !! userId)).
  { intros A m Hm.
    apply (preserves_complete settings_kept env m w
             settings_kept_refl settings_kept_trans Henv); [|exact Hm|exact Hsome].
    intros e w0 u H. exact H. }
  destruct Hw' as [-> | [-> | [-> | [-> | [-> | [-> | ->]]]]]]; apply Hgo.
  - apply settings_kept_onSession.
  - apply settings_kept_onDisconnected.
  - apply settings_kept_startStreamForUser.
  - apply settings_kept_stopStreamForUser.
  - apply settings_kept_updatePersistentSettingsForUser.
  - apply settings_kept_setRtmpUrlForUser.
  - apply settings_kept_onStatus.
Qed.

Lemma settings_are_never_removed_witness :
  is_Some (persistentUserSettings
             (fst (complete (quiet (replies None (Fulfilled tt)))
                            (onDisconnected "u3") demoWorld)) !! "u3").
Proof.
  refine (settings_are_never_removed (quiet (replies None (Fulfilled tt))) demoWorld "u3"
            _ _ "u3" 7%nat None None None (mkPartial None Omitted Omitted) ""
            (initialStreamStatus 0) _ (or_intror (or_introl eq_refl))).
  - intros c w0. apply settings_kept_refl.
  - vm_compute. eauto.
Defined.

(** ** The fallback user of the demo *)

(** X19. In the demo version of [webview.ts] a request without a user id
    can set and read the RTMP URL of the user [alex1115alex@gmail.com]: the
    route [/api/rtmp-url] answers 200 for a non-empty string and the routes
    that read the settings then show that URL. *)
Theorem demo_fallback_user_url w constructedAt url :
  url ≠ "" →
  ∃ w',
    run (WebviewDemoApi.api_rtmp_url None (JsString url)) w
    = (w', Done (mkRtmpUrlAnswer 200 true "RTMP URL updated successfully for user."
                                 (Some url) (Some WebviewDemo.fallbackUser)))
    ∧ getRtmpUrlForUser w' WebviewDemo.fallbackUser = Some url
    ∧ si_code (WebviewDemoApi.api_stream_info constructedAt None w') = 200
    ∧ si_userId (WebviewDemoApi.api_stream_info constructedAt None w')
      = Some WebviewDemo.fallbackUser
    ∧ si_rtmpUrl (WebviewDemoApi.api_stream_info constructedAt None w') = Some url.
Proof.
  intros Hurl.
  destruct (setRtmpUrlForUser_done w WebviewDemo.fallbackUser url Hurl)
    as (w' & Hrun & Hget).
  exists w'. split.
  - unfold WebviewDemoApi.api_rtmp_url, rtmp_url_for, truthy.
    change (or_string None WebviewDemo.fallbackUser) with WebviewDemo.fallbackUser.
    destruct (decide (WebviewDemo.fallbackUser = "")) as [E|_]; [discriminate|].
    rewrite (bool_decide_eq_true_2 _ Hurl). cbn [negb].
    rewrite run_try_catch, run_bind, Hrun. reflexivity.
  - split; [exact Hget|]. repeat split. exact Hget.
Qed.

Lemma demo_fallback_user_url_witness :
  ∃ w',
    run (WebviewDemoApi.api_rtmp_url None (JsString "rtmp://dest/x")) emptyWorld
    = (w', Done (mkRtmpUrlAnswer 200 true "RTMP URL updated successfully for user."
                                 (Some "rtmp://dest/x") (Some WebviewDemo.fallbackUser)))
    ∧ getRtmpUrlForUser w' WebviewDemo.fallbackUser = Some "rtmp://dest/x".
Proof.
  destruct (demo_fallback_user_url emptyWorld 0 "rtmp://dest/x" ltac:(discriminate))
    as (w' & Hrun & Hget & _).
  exists w'. split; assumption.
Defined.

(** ** A reconnect while a start is in flight *)

(** X20. A user starts a stream with highlighting and, while the
    configuration request is awaited, disconnects and connects again.  The
    start goes on with the state object of the old session: the ingest URL,
    the playback URL and a transport failure are written there, and the
    stream request is issued on the old session's handle.  The state object
    of the new session is as the connect built it from the persistent
    settings: status ['stopped'], no playback URL, the persisted URL. *)
Theorem startStream_reconnect_in_flight w userId l st url highlightFaces streamMode
    (oracle : ∀ c, Settled (reply c)) (resp : Response) (cfg : ConfigResult) s2 :
  let mode := default hls streamMode in
  let highlight := if decide (mode = hls) then Some true else highlightFaces in
  let urlToUse := or_string url (or_string (Some (rtmpUrl st)) defaultRtmpUrl) in
  let fetchCall := Fetch (faceRecognitionServerUrl +:+ "/api/config/" +:+
                          streamKey userId) "POST" (configBody mode urlToUse) in
  let ingest := "rtmp://stream.okgodoit.com/live/" +:+ streamKey userId in
  let transportCall := RequestStream (session st) (streamRequest ingest) in
  activeUserStates w !! userId = Some l →
  heap w !! l = Some st →
  mode ≠ simulation →
  truthy_bool highlight = true →
  oracle fetchCall = Fulfilled resp →
  ok resp = true →
  oracle (ResponseJson resp) = Fulfilled cfg →
  ∀ w' r,
    complete (reconnect_during_fetch s2 userId oracle)
             (startStreamForUser userId url highlightFaces streamMode) w = (w', r) →
    r = oracle transportCall
    ∧ In (Issued transportCall) (output w')
    ∧ activeState w' userId =
        Some (mkState
                (or_string
                   (Some (ps_rtmpUrl (existingOrDefault
                                        (persistentUserSettings w !! userId))))
                   defaultRtmpUrl)
                (mkStatus RTMP_STREAM_STATUS "stopped" None (clock w) None) s2
                (Some true) None (Some mode))
    ∧ heap w' !! l =
        Some (mkState ingest
                match oracle transportCall with
                | Fulfilled _ => streamStatus st
                | Rejected e =>
                    mkStatus RTMP_STREAM_STATUS "error" (Some (message e)) (clock w) None
                end
                (session st) highlight
                (if truthy_string (output_url cfg) && bool_decide (mode = hls)
                 then output_url cfg else hlsUrl st)
                (Some mode)).
Proof.
  intros mode highlight urlToUse fetchCall ingest transportCall
         Hl Hs Hmode Hhl Hfetch Hok Hjson w' r.
  subst mode highlight urlToUse fetchCall ingest transportCall.
  assert (Hlt : (l < length (heap w))%nat) by (eapply lookup_lt_Some; exact Hs).
  destruct streamMode as [[]|]; simpl in *; try congruence;
    unfold startStreamForUser; step;
    try (destruct highlightFaces as [[]|]; simpl in Hhl; try discriminate);
    step; rewrite Hfetch; step; rewrite Hok; step; rewrite Hjson; step;
    (destruct (truthy_string (output_url cfg)) eqn:Hout; step;
     match goal with
     | |- context [match oracle ?c with _ => _ end] =>
         destruct (oracle c) as [[]|e] eqn:Htransport
     end; step;
     intros Hrun; inversion Hrun; subst; clear Hrun;
     (split; [reflexivity|]);
     (split; [simpl; rewrite !in_app_iff; simpl; tauto|]);
     (split;
      [ unfold activeState; rewrite lookupState_unfold; simpl;
        rewrite lookup_insert_eq; simpl;
        rewrite ?length_alter;
        rewrite ?list_lookup_alter_ne by lia;
        rewrite lookup_app_r by (rewrite ?length_alter; lia);
        rewrite ?length_alter, Nat.sub_diag; simpl;
        rewrite ?lookup_insert_eq; reflexivity
      | simpl; rewrite ?list_lookup_alter_eq;
        rewrite lookup_app_l by (rewrite ?length_alter; lia);
        rewrite ?list_lookup_alter_eq, Hs; reflexivity ])).
Qed.

Lemma startStream_reconnect_in_flight_witness :
  activeState
    (fst (complete (reconnect_during_fetch 8%nat "u4"
                      (replies (Some playbackUrl) (Fulfilled tt)))
                   (startStreamForUser "u4" None None (Some hls))
                   (connected 7%nat "u4" emptyWorld))) "u4"
  = Some (mkState defaultRtmpUrl (mkStatus RTMP_STREAM_STATUS "stopped" None 0 None)
                  8%nat (Some true) None (Some hls)).
Proof.
  destruct (startStream_reconnect_in_flight (connected 7%nat "u4" emptyWorld) "u4" 0%nat
              (mkState defaultRtmpUrl (initialStreamStatus 0) 7%nat (Some true)
                       None (Some hls))
              None None (Some hls)
              (replies (Some playbackUrl) (Fulfilled tt))
              (mkResponse true "OK") (mkConfigResult (Some playbackUrl)) 8%nat
              ltac:(vm_compute; reflexivity) eq_refl ltac:(discriminate)
              eq_refl eq_refl eq_refl eq_refl _ _ (surjective_pairing _))
    as (_ & _ & Hstate & _).
  exact Hstate.
Defined.
